(** * simple-photo-management: the browser client's state logic

    A shallow embedding of [public/src/app.js] (the root [App] component:
    request descriptors, request handlers, their [then]/[catch] callbacks and
    the record/auth state they maintain) and of [public/src/data-table-nav.js]
    (the toolbar: term validation, admin gating of the buttons, refresh).

    Conventions of the embedding.
    - JavaScript values are the inductive [value]; a JS object used as a
      dictionary is a [gmap string value].  A property that is absent reads
      as [VUndefined], as in JS; an own property may also hold [VUndefined].
    - Page numbers and numeric payloads are integers ([Z]).
    - [data.results], when it is there, is an array of JSON objects (the
      photo items of the REST API); [record.meta.page] is a number.
    - [this.setState] is a shallow merge applied on the spot.  No callback of
      [app.js] reads a key of [this.state] after it has queued an update of
      the same key, so batching the updates gives the same state at the end
      of every callback.
    - A promise chain [apiRequest.then(f).catch(g)] is kept as a pending
      entry that names the handler and the arguments its closures captured;
      it is settled later by a response or by a failure.
    - Objects are values.  The callbacks of [getRecordsHandler] are stated
      for the content of the record they hold when they run; a request in
      flight of the event model carries the content the record had when it
      was dispatched.  The two differ when the record object is changed in
      place in between, which in these sources the refresh button of the
      toolbar does to [this.state.record] (it sets the page to 1); the
      refresh is an action on [this.state.record] itself.  The invariants
      of the event model hold for either content, and no other statement
      ties the record of a settled fetch to the state at dispatch.
    - [processRequest] ([api.js]) and [process.env] are parameters. *)

From stdpp Require Import gmap strings list fin_maps.
From Stdlib Require Import ZArith Ascii String.

#[local] Set Warnings "-register-all".
#[local] Open Scope string_scope.
#[local] Open Scope Z_scope.

(** ** A fragment of JavaScript values *)

Module JS.

Inductive value : Type :=
  | VUndefined
  | VNull
  | VBool (b : bool)
  | VNum (n : Z)
  | VStr (s : string)
  | VArr (l : list value)
  | VObj (o : gmap string value).

(** [o.k], the value of property [k] *)
Definition get (o : gmap string value) (k : string) : value :=
  match o !! k with
  | Some v => v
  | None => VUndefined
  end.

(** [o.hasOwnProperty(k)] *)
Definition hasOwnProperty (o : gmap string value) (k : string) : bool :=
  match o !! k with
  | Some _ => true
  | None => false
  end.

(** [Object.assign(target, source)]: the own properties of [source] are
    written over those of [target]. *)
Definition assign (target source : gmap string value) : gmap string value :=
  source ∪ target.

(** ToBoolean *)
Definition truthy (v : value) : bool :=
  match v with
  | VUndefined | VNull => false
  | VBool b => b
  | VNum n => negb (Z.eqb n 0)
  | VStr s => negb (String.eqb s "")
  | VArr _ | VObj _ => true
  end.

(** [a === b].  Primitives compare by value.  Arrays and objects compare by
    identity, which a value cannot show: [same_ref] answers for them. *)
Definition strict_eq (same_ref : value → value → bool) (a b : value) : bool :=
  match a, b with
  | VUndefined, VUndefined => true
  | VNull, VNull => true
  | VBool x, VBool y => Bool.eqb x y
  | VNum x, VNum y => Z.eqb x y
  | VStr x, VStr y => String.eqb x y
  | VArr _, VArr _ => same_ref a b
  | VObj _, VObj _ => same_ref a b
  | _, _ => false
  end.

(** A default parameter [p = d]: the default is taken when the argument is
    [undefined]. *)
Definition default_param (d v : value) : value :=
  match v with
  | VUndefined => d
  | _ => v
  end.

(** [JSON.parse(JSON.stringify(v))] for a value inside a document: a
    property holding [undefined] is left out of its object, an [undefined]
    array element becomes [null]. *)
Fixpoint jsonClone (v : value) : value :=
  match v with
  | VArr l =>
      VArr (map (λ x, match x with VUndefined => VNull | _ => jsonClone x end) l)
  | VObj o =>
      VObj (omap (λ x, match x with VUndefined => None | _ => Some (jsonClone x) end) o)
  | _ => v
  end.

Definition clone_prop (x : value) : option value :=
  match x with
  | VUndefined => None
  | _ => Some (jsonClone x)
  end.

(** the clone of an object *)
Definition clone_obj (o : gmap string value) : gmap string value :=
  omap clone_prop o.

(** The values of a JSON document: no [undefined] at any depth. *)
Inductive json : value → Prop :=
  | json_null : json VNull
  | json_bool b : json (VBool b)
  | json_num n : json (VNum n)
  | json_str s : json (VStr s)
  | json_arr l : Forall json l → json (VArr l)
  | json_obj o : map_Forall (λ _, json) o → json (VObj o).

(** two distinct object graphs never share a reference *)
Definition no_alias (a b : value) : bool := false.

End JS.

Export JS.

(** ** The request descriptors, [this.apiOptions] *)

Module Api.

Inductive Method := GET | POST | PATCH | DELETE.

Record ApiOption := {
  requestType : string;
  method : Method;
  desc : string
}.

Definition GET_PHOTOS : ApiOption :=
  {| requestType := "get_photos"; method := GET;
     desc := "request to get photo data" |}.
Definition GET_TAGS : ApiOption :=
  {| requestType := "get_tags"; method := GET;
     desc := "request to get photo tag data" |}.
Definition PRUNE_TAGS : ApiOption :=
  {| requestType := "prune_tags"; method := DELETE;
     desc := "request to delete un-used tags" |}.
Definition BULK_REMOVE_TAGS : ApiOption :=
  {| requestType := "bulk_remove_tags"; method := DELETE;
     desc := "request to bulk remove all tags from all mod_lock images & remove mod_lock" |}.
Definition SEARCH_AND_REPLACE : ApiOption :=
  {| requestType := "search_and_replace"; method := GET;
     desc := "request to search & replace tags" |}.
Definition REPROCESS_RECORD : ApiOption :=
  {| requestType := "reprocess"; method := GET;
     desc := "request to reprocess an image record" |}.
Definition PROCESS_PHOTOS : ApiOption :=
  {| requestType := "process_photos"; method := GET;
     desc := "request to begin photo re-tagging operation" |}.
Definition UPDATE_PHOTOS : ApiOption :=
  {| requestType := "update_photos"; method := PATCH;
     desc := "request to update the photo, e.g. add tags, mutations" |}.
Definition POST_AUTH : ApiOption :=
  {| requestType := "post_auth"; method := POST;
     desc := "POST request to for authorization" |}.
Definition POST_LOGOUT : ApiOption :=
  {| requestType := "post_logout"; method := POST;
     desc := "POST request to for logout of server" |}.
Definition PATCH_CHANGE_PW : ApiOption :=
  {| requestType := "patch_change_pw"; method := PATCH;
     desc := "PATCH request to for changing password" |}.

(** the keys of [this.apiOptions], in the order of the source *)
Definition apiOptions : list (string * ApiOption) :=
  [ ("GET_PHOTOS", GET_PHOTOS);
    ("GET_TAGS", GET_TAGS);
    ("PRUNE_TAGS", PRUNE_TAGS);
    ("BULK_REMOVE_TAGS", BULK_REMOVE_TAGS);
    ("SEARCH_AND_REPLACE", SEARCH_AND_REPLACE);
    ("REPROCESS_RECORD", REPROCESS_RECORD);
    ("PROCESS_PHOTOS", PROCESS_PHOTOS);
    ("UPDATE_PHOTOS", UPDATE_PHOTOS);
    ("POST_AUTH", POST_AUTH);
    ("POST_LOGOUT", POST_LOGOUT);
    ("PATCH_CHANGE_PW", PATCH_CHANGE_PW) ].

(** [this.apiOptions[key].method] *)
Definition method_of (key : string) : option Method :=
  match List.find (λ e, String.eqb (fst e) key) apiOptions with
  | Some e => Some (method (snd e))
  | None => None
  end.

End Api.

(** ** The state of the [App] component *)

Module App.

Import Api.

(** [record.meta]: the page number, and every other own property ([limit],
    [pagerMainSize], [pagerEndSize], [pageOrderBy], [pageOrderDir],
    [previous], [next], [cacheControl], [search], ...) *)
Record Meta := {
  page : Z;
  mfields : gmap string value
}.

(** [record.data]: the photo items, and every other own property
    ([user_is_admin], [count], ...) *)
Record Data := {
  results : list (gmap string value);
  dfields : gmap string value
}.

Record RecordT := {
  meta : Meta;
  data : Data
}.

Record AuthMeta := {
  authenticated : bool;
  userIsAdmin : value
}.

Record Message := {
  message : value;
  messageClass : value
}.

Record TagSuggestions := {
  itemID : value;
  suggestions : list value
}.

(** [this.state]; the field [st_x] is [this.state.x] *)
Record State := {
  st_record : RecordT;
  st_authMeta : AuthMeta;
  st_greeting : value;
  st_csrfToken : value;
  st_message : Message;
  st_tagSuggestions : TagSuggestions
}.

(** [this.setState({record: r})] and its siblings *)
Definition setState_record (r : RecordT) (s : State) : State :=
  {| st_record := r; st_authMeta := st_authMeta s; st_greeting := st_greeting s;
     st_csrfToken := st_csrfToken s; st_message := st_message s;
     st_tagSuggestions := st_tagSuggestions s |}.

Definition setState_authMeta (a : AuthMeta) (s : State) : State :=
  {| st_record := st_record s; st_authMeta := a; st_greeting := st_greeting s;
     st_csrfToken := st_csrfToken s; st_message := st_message s;
     st_tagSuggestions := st_tagSuggestions s |}.

Definition setState_csrfToken (t : value) (s : State) : State :=
  {| st_record := st_record s; st_authMeta := st_authMeta s;
     st_greeting := st_greeting s; st_csrfToken := t;
     st_message := st_message s; st_tagSuggestions := st_tagSuggestions s |}.

Definition setState_message (m : Message) (s : State) : State :=
  {| st_record := st_record s; st_authMeta := st_authMeta s;
     st_greeting := st_greeting s; st_csrfToken := st_csrfToken s;
     st_message := m; st_tagSuggestions := st_tagSuggestions s |}.

Definition setState_tagSuggestions (t : TagSuggestions) (s : State) : State :=
  {| st_record := st_record s; st_authMeta := st_authMeta s;
     st_greeting := st_greeting s; st_csrfToken := st_csrfToken s;
     st_message := st_message s; st_tagSuggestions := t |}.

(** [Object.assign(r.meta, {page: p})] *)
Definition assign_page (p : Z) (r : RecordT) : RecordT :=
  {| meta := {| page := p; mfields := mfields (meta r) |}; data := data r |}.

(** [JSON.parse(JSON.stringify(r))] of a record *)
Definition clone_record (r : RecordT) : RecordT :=
  {| meta := {| page := page (meta r); mfields := clone_obj (mfields (meta r)) |};
     data := {| results := map clone_obj (results (data r));
                dfields := clone_obj (dfields (data r)) |} |}.

(** [JSON.parse(JSON.stringify(this.state.authMeta))] *)
Definition clone_authMeta (a : AuthMeta) : AuthMeta :=
  {| authenticated := authenticated a;
     userIsAdmin := match clone_prop (userIsAdmin a) with
                    | Some v => v
                    | None => VUndefined
                    end |}.

(** The variables of [process.env] read by the constructor. *)
Record Env := {
  REACT_APP_ROWS_PER_TABLE : value;
  REACT_APP_PAGER_MAIN_SIZE : value;
  REACT_APP_PAGER_END_SIZE : value;
  REACT_APP_GREETING : value
}.

(** [this.state = JSON.parse(JSON.stringify(this.initialState))] *)
Definition initialState (env : Env) : State :=
  {| st_record :=
       clone_record
         {| meta :=
              {| page := 1;
                 mfields :=
                   <["limit" := REACT_APP_ROWS_PER_TABLE env]>
                   (<["pagerMainSize" := REACT_APP_PAGER_MAIN_SIZE env]>
                   (<["pagerEndSize" := REACT_APP_PAGER_END_SIZE env]>
                   (<["pageOrderBy" := VStr "record_updated"]>
                   (<["pageOrderDir" := VStr "-"]>
                   (<["previous" := VNull]>
                   (<["next" := VNull]>
                   (<["cacheControl" := VStr "no-cache"]>
                   (<["search" := VStr ""]> ∅)))))))) |};
            data := {| results := []; dfields := ∅ |} |};
     st_authMeta := {| authenticated := false; userIsAdmin := VBool false |};
     st_greeting := match clone_prop (REACT_APP_GREETING env) with
                    | Some v => v
                    | None => VUndefined
                    end;
     st_csrfToken := VNull;
     st_message := {| message := VStr ""; messageClass := VStr "" |};
     st_tagSuggestions := {| itemID := VNull; suggestions := [] |} |}.

(** ** Requests and the closures that wait for them *)

(** The argument of a call of [processRequest]. *)
Inductive Request :=
  | ReqGetPhotos (url : value) (record : RecordT)
  | ReqReprocess (record : gmap string value)
  | ReqGetTags (term : value)
  | ReqSearchAndReplace (searchTerm replaceTerm : string)
  | ReqPruneTags
  | ReqBulkRemoveTags
  | ReqProcessPhotos (retag scan clean_db : bool)
  | ReqUpdate (id tags update_mode update_params : value).

(** the [apiMode] of the call *)
Definition apiMode (r : Request) : ApiOption :=
  match r with
  | ReqGetPhotos _ _ => GET_PHOTOS
  | ReqReprocess _ => REPROCESS_RECORD
  | ReqGetTags _ => GET_TAGS
  | ReqSearchAndReplace _ _ => SEARCH_AND_REPLACE
  | ReqPruneTags => PRUNE_TAGS
  | ReqBulkRemoveTags => BULK_REMOVE_TAGS
  | ReqProcessPhotos _ _ _ => PROCESS_PHOTOS
  | ReqUpdate _ _ _ _ => UPDATE_PHOTOS
  end.

(** The [then]/[catch] pair a handler attaches to its request, with the
    arguments the two closures captured. *)
Inductive Callbacks :=
  | CbGetRecords (record : RecordT) (notifyResponse : bool)
  | CbReprocessRecord (notifyResponse : bool)
  | CbTagSuggestions (itemID : value) (notifyResponse : bool)
  | CbSearchAndReplace (notifyResponse : bool)
  | CbPruneTags (notifyResponse : bool)
  | CbBulkRemoveTags (notifyResponse : bool)
  | CbProcessPhotos (retag scan clean_db : bool) (notifyResponse : bool)
  | CbUpdate (notifyResponse : bool).

(** [response.data]: its [results] when the property is there (an array of
    objects), and its other own properties. *)
Record ResponseData := {
  r_results : option (list (gmap string value));
  r_fields : gmap string value
}.

(** [response.data] as one object *)
Definition data_obj (d : ResponseData) : gmap string value :=
  match r_results d with
  | Some l => <["results" := VArr (map VObj l)]> (r_fields d)
  | None => r_fields d
  end.

(** How a pending promise is settled: it resolves with a response (or with
    a falsy value, [None]), or it is rejected with an error. *)
Inductive Settlement :=
  | Resolved (response : option ResponseData)
  | Rejected (error : value).

(** What running a callback gives: it returns, having dispatched some
    requests, or it throws. *)
Inductive Completion :=
  | Returns (s : State) (dispatched : list (Request * Callbacks))
  | Throws (s : State) (error : value).

(** [this.statusMessages] *)
Definition statusMessages_retag : string :=
  "Processing of new photos & resync of existing photo tags in progress!".
Definition statusMessages_scan : string :=
  "Processing of newly added photos in progress!".
Definition statusMessages_clean_db : string :=
  "Database cleaning in progress!".

Definition API_ERROR : string := "An API error has occurred".
Definition ALERT_DANGER : string := "alert alert-danger".
Definition ALERT_SUCCESS : string := "alert alert-success".
Definition TYPE_ERROR : value := VStr "TypeError".

(** [setMessage({ message = null, messageClass = "" } = {})] *)
Definition setMessage (message messageClass : value) (s : State) : State :=
  setState_message
    {| message := default_param VNull message;
       messageClass := default_param (VStr "") messageClass |} s.

Section Handlers.

(** identity of two arrays or objects, see [strict_eq] *)
Variable same_ref : value → value → bool.

(** [processRequest] of [api.js]: all a handler looks at is whether it
    gave back a promise. *)
Variable processRequest : Request → bool.

(** [setAuthorized({ role = "admin", state = false } = {})] *)
Definition setAuthorized (role state : value) (s : State) : State :=
  let role := default_param (VStr "admin") role in
  let state := default_param (VBool false) state in
  let clonedAuthMeta := clone_authMeta (st_authMeta s) in
  if strict_eq same_ref role (VStr "admin") then
    if negb (strict_eq same_ref state (userIsAdmin (st_authMeta s))) then
      setState_authMeta
        {| authenticated := authenticated clonedAuthMeta; userIsAdmin := state |} s
    else s
  else s.

(** the [adminStatus] computed by [_setRecordState] *)
Definition adminStatus (d : Data) : value :=
  let top :=
    if hasOwnProperty (dfields d) "user_is_admin"
    then get (dfields d) "user_is_admin"
    else VBool false in
  match results d with
  | r0 :: _ =>
      if hasOwnProperty r0 "user_is_admin" then get r0 "user_is_admin" else top
  | [] => top
  end.

(** [_setRecordState({ newRecord } = {})] *)
Definition _setRecordState (newRecord : RecordT) (s : State) : State :=
  let page := page (meta newRecord) in
  let updatedPage := if page <? 1 then 1 else page in
  let newRecord := assign_page updatedPage newRecord in
  let adminStatus := adminStatus (data newRecord) in
  let s :=
    if negb (strict_eq same_ref adminStatus (userIsAdmin (st_authMeta s)))
    then setAuthorized (VStr "admin") adminStatus s
    else s in
  setState_record newRecord s.

(** [getRecordsHandler({ record = this.state.record, url = null,
    notifyResponse = true } = {})] *)
Definition getRecordsHandler (record : option RecordT) (url : value)
    (notifyResponse : bool) (s : State) : State * list (Request * Callbacks) :=
  let record := default (st_record s) record in
  if authenticated (st_authMeta s) then
    let apiRequest := ReqGetPhotos url record in
    if processRequest apiRequest
    then (s, [(apiRequest, CbGetRecords record notifyResponse)])
    else (s, [])
  else (s, []).

(** the [then] callback of [getRecordsHandler] *)
Definition getRecords_then (record : RecordT) (notifyResponse : bool)
    (response : option ResponseData) (s : State) : State :=
  match response with
  | Some d =>
      let s :=
        if notifyResponse
        then setMessage (VStr "Records successfully retrieved!") (VStr ALERT_SUCCESS) s
        else s in
      let recordCopy := clone_record (st_record s) in
      let newData :=
        match r_results d with
        | Some l =>
            {| results := l;
               dfields := assign (dfields (data recordCopy)) (r_fields d) |}
        | None =>
            {| results := [];
               dfields := <["user_is_admin" := get (r_fields d) "user_is_admin"]>
                            (dfields (data recordCopy)) |}
        end in
      let newMeta :=
        {| page := page (meta record);
           mfields := assign (mfields (meta recordCopy)) (mfields (meta record)) |} in
      _setRecordState {| meta := newMeta; data := newData |} s
  | None => s
  end.

(** the [catch] callback of [getRecordsHandler] *)
Definition getRecords_catch (record : RecordT) (error : value) (s : State) : State :=
  let s := setMessage (VStr API_ERROR) (VStr ALERT_DANGER) s in
  _setRecordState record s.

Definition clearTagSuggestions (s : State) : State :=
  setState_tagSuggestions {| itemID := VNull; suggestions := [] |} s.

(** [reprocessRecordHandler({ record = null, notifyResponse = false } = {})] *)
Definition reprocessRecordHandler (record : option (gmap string value))
    (notifyResponse : bool) (s : State) : State * list (Request * Callbacks) :=
  let dispatched :=
    match record with
    | Some r =>
        if authenticated (st_authMeta s) then
          if processRequest (ReqReprocess r)
          then [(ReqReprocess r, CbReprocessRecord notifyResponse)]
          else []
        else []
    | None => []
    end in
  (clearTagSuggestions s, dispatched).

(** the [then] callback of [reprocessRecordHandler] *)
Definition reprocessRecord_then (notifyResponse : bool)
    (response : option ResponseData) (s : State)
    : State * list (Request * Callbacks) :=
  match response with
  | Some _ =>
      let s :=
        if notifyResponse
        then setMessage (VStr "Reprocessing task initiated!") (VStr ALERT_SUCCESS) s
        else s in
      getRecordsHandler None VNull true s
  | None => (s, [])
  end.

(** [tagSuggestionsHandler({ term = null, itemID = null,
    notifyResponse = false } = {})] *)
Definition tagSuggestionsHandler (term itemID : value) (notifyResponse : bool)
    (s : State) : State * list (Request * Callbacks) :=
  let dispatched :=
    if authenticated (st_authMeta s) && truthy term then
      if processRequest (ReqGetTags term)
      then [(ReqGetTags term, CbTagSuggestions itemID notifyResponse)]
      else []
    else [] in
  (clearTagSuggestions s, dispatched).

(** the [then] callback of [tagSuggestionsHandler]; [forEach] on a missing
    [results] throws *)
Definition tagSuggestions_then (itemID : value) (notifyResponse : bool)
    (response : option ResponseData) (s : State) : Completion :=
  match response with
  | Some d =>
      let s :=
        if notifyResponse
        then setMessage (VStr "Tags successfully retrieved!") (VStr ALERT_SUCCESS) s
        else s in
      match r_results d with
      | Some l =>
          let newSuggestions := map (λ result, get result "tag") l in
          Returns
            (setState_tagSuggestions
               {| itemID := itemID; suggestions := newSuggestions |} s) []
      | None => Throws s TYPE_ERROR
      end
  | None => Returns s []
  end.

(** a [catch] callback that only reports *)
Definition report_catch (text : string) (error : value) (s : State) : State :=
  setMessage (VStr text) (VStr ALERT_DANGER) s.

(** a [then] callback that only reports *)
Definition report_then (text : string) (notifyResponse : bool)
    (response : option ResponseData) (s : State) : State :=
  match response with
  | Some _ =>
      if notifyResponse then setMessage (VStr text) (VStr ALERT_SUCCESS) s else s
  | None => s
  end.

(** [searchAndReplaceHandler({ searchTerm = "", replaceTerm = "",
    notifyResponse = true })] *)
Definition searchAndReplaceHandler (searchTerm replaceTerm : string)
    (notifyResponse : bool) (s : State) : State * list (Request * Callbacks) :=
  if authenticated (st_authMeta s) && truthy (VStr searchTerm)
     && truthy (VStr replaceTerm) then
    if processRequest (ReqSearchAndReplace searchTerm replaceTerm)
    then (s, [(ReqSearchAndReplace searchTerm replaceTerm,
               CbSearchAndReplace notifyResponse)])
    else (s, [])
  else (s, []).

(** [handlePruneTags({ notifyResponse = true } = {})] *)
Definition handlePruneTags (notifyResponse : bool) (s : State)
    : State * list (Request * Callbacks) :=
  if authenticated (st_authMeta s) then
    if processRequest ReqPruneTags
    then (s, [(ReqPruneTags, CbPruneTags notifyResponse)])
    else (s, [])
  else (s, []).

(** [handleBulkRemoveTags({ notifyResponse = true } = {})] *)
Definition handleBulkRemoveTags (notifyResponse : bool) (s : State)
    : State * list (Request * Callbacks) :=
  if authenticated (st_authMeta s) then
    if processRequest ReqBulkRemoveTags
    then (s, [(ReqBulkRemoveTags, CbBulkRemoveTags notifyResponse)])
    else (s, [])
  else (s, []).

(** [handleProcessPhotos({ record = this.state.record, retag = false,
    scan = false, clean_db = false, notifyResponse = true } = {})] *)
Definition handleProcessPhotos (retag scan clean_db notifyResponse : bool)
    (s : State) : State * list (Request * Callbacks) :=
  if authenticated (st_authMeta s) then
    if processRequest (ReqProcessPhotos retag scan clean_db)
    then (s, [(ReqProcessPhotos retag scan clean_db,
               CbProcessPhotos retag scan clean_db notifyResponse)])
    else (s, [])
  else (s, []).

(** the message of the [then] callback of [handleProcessPhotos] *)
Definition processPhotos_status (retag scan clean_db : bool) : string :=
  if retag then statusMessages_retag
  else if scan then statusMessages_scan
  else if clean_db then statusMessages_clean_db
  else "".

(** [handleUpdate({ record = this.state.record, updateParams, recordItem,
    updateMode, tags = [], notifyResponse = true } = {})] *)
Definition handleUpdate (recordItem : gmap string value)
    (tags updateMode updateParams : value) (notifyResponse : bool) (s : State)
    : State * list (Request * Callbacks) :=
  if authenticated (st_authMeta s) then
    let apiRequest :=
      ReqUpdate (get recordItem "id") (default_param (VArr []) tags)
                updateMode updateParams in
    if processRequest apiRequest
    then (s, [(apiRequest, CbUpdate notifyResponse)])
    else (s, [])
  else (s, []).

(** the body of the [forEach] in the [then] callback of [handleUpdate] *)
Definition update_item (body r : gmap string value) : gmap string value :=
  if strict_eq same_ref (get r "id") (get body "id") then assign r body else r.

(** the [then] callback of [handleUpdate] *)
Definition update_then (notifyResponse : bool) (response : option ResponseData)
    (s : State) : State :=
  match response with
  | Some d =>
      let recordCopy := clone_record (st_record s) in
      let recordCopy :=
        {| meta := meta recordCopy;
           data := {| results := map (update_item (data_obj d))
                                     (results (data recordCopy));
                      dfields := dfields (data recordCopy) |} |} in
      let s := _setRecordState recordCopy s in
      if notifyResponse
      then setMessage (VStr "Updating tags succeeded!") (VStr ALERT_SUCCESS) s
      else s
  | None => s
  end.

(** the [then] callback attached by each handler *)
Definition then_callback (cb : Callbacks) (response : option ResponseData)
    (s : State) : Completion :=
  match cb with
  | CbGetRecords record n => Returns (getRecords_then record n response s) []
  | CbReprocessRecord n =>
      let '(s', d) := reprocessRecord_then n response s in Returns s' d
  | CbTagSuggestions itemID n => tagSuggestions_then itemID n response s
  | CbSearchAndReplace n =>
      Returns
        (report_then
           "Tag replacement task successfully initiated! Please refresh the dataset in a few moments to view the changes."
           n response s) []
  | CbPruneTags n => Returns (report_then "Tag pruning initiated!" n response s) []
  | CbBulkRemoveTags n =>
      Returns (report_then "Tag removal initiated!" n response s) []
  | CbProcessPhotos retag scan clean_db n =>
      Returns (report_then (processPhotos_status retag scan clean_db) n response s) []
  | CbUpdate n => Returns (update_then n response s) []
  end.

(** the [catch] callback attached by each handler *)
Definition catch_callback (cb : Callbacks) (error : value) (s : State) : State :=
  match cb with
  | CbGetRecords record _ => getRecords_catch record error s
  | CbReprocessRecord _ => report_catch API_ERROR error s
  | CbTagSuggestions _ _ => report_catch API_ERROR error s
  | CbSearchAndReplace _ => report_catch API_ERROR error s
  | CbPruneTags _ => report_catch API_ERROR error s
  | CbBulkRemoveTags _ => report_catch API_ERROR error s
  | CbProcessPhotos _ _ _ _ =>
      report_catch "An API error has occurred. Photo processing initiation failed!"
                   error s
  | CbUpdate _ =>
      report_catch "An API error has occurred. Updating tags failed!" error s
  end.

(** [apiRequest.then(f).catch(g)]: [g] runs when the request is rejected
    and when [f] throws. *)
Definition settle (cb : Callbacks) (o : Settlement) (s : State)
    : State * list (Request * Callbacks) :=
  match o with
  | Resolved response =>
      match then_callback cb response s with
      | Returns s' d => (s', d)
      | Throws s' e => (catch_callback cb e s', [])
      end
  | Rejected e => (catch_callback cb e s, [])
  end.

(** [setAuthentication()]; [token] is [sessionStorage.getItem("token")].
    The records are fetched in the callback of [setState]. *)
Definition setAuthentication (token : value) (s : State)
    : State * list (Request * Callbacks) :=
  let authenticated := truthy token in
  let clonedAuthMeta := clone_authMeta (st_authMeta s) in
  let s :=
    setState_authMeta
      {| authenticated := authenticated;
         userIsAdmin := userIsAdmin clonedAuthMeta |} s in
  getRecordsHandler None VNull true s.

(** [componentDidMount()]; [csrftoken] is [Cookies.get("csrftoken")] *)
Definition componentDidMount (csrftoken token : value) (s : State)
    : State * list (Request * Callbacks) :=
  setAuthentication token (setState_csrfToken csrftoken s).

End Handlers.

End App.

(** ** The toolbar, [DataTableNav] *)

Module Nav.

Import App.

(** the three [useState] cells *)
Record NavState := {
  term : string;
  replaceTerm : string;
  sar : bool
}.

(** A call of one of the callbacks received as props. *)
Inductive Call :=
  | handleGetRecords (record : RecordT)
  | handleProcessPhotos (scan retag clean_db : bool)
  | handleSearch (record : RecordT) (term : string)
  | handleSearchAndReplace (searchTerm replaceTerm : string)
  | handlePruneTags
  | handleBulkRemoveTags.

(** The character class of the regular expression of [validateTerm]:
    a-z, A-Z, \d, and . / + - ' ? : | ( ) space and the double quote
    (character 034). *)
Definition in_class (c : ascii) : bool :=
  (Ascii.leb "a" c && Ascii.leb c "z")
  || (Ascii.leb "A" c && Ascii.leb c "Z")
  || (Ascii.leb "0" c && Ascii.leb c "9")
  || Ascii.eqb c "."
  || Ascii.eqb c "/"
  || Ascii.eqb c "+"
  || Ascii.eqb c "-"
  || Ascii.eqb c "'"
  || Ascii.eqb c "?"
  || Ascii.eqb c ":"
  || Ascii.eqb c "034"
  || Ascii.eqb c "|"
  || Ascii.eqb c "("
  || Ascii.eqb c ")"
  || Ascii.eqb c " ".

(** The test of [value] against the regular expression, which is the class
    under a star between the anchors ^ and $: every character must be in
    the class up to the end of the input. *)
Fixpoint regex_test (value : string) : bool :=
  match value with
  | EmptyString => true
  | String c rest => in_class c && regex_test rest
  end.

(** [validateTerm]; the fallback is the search term [term] *)
Definition validateTerm (st : NavState) (value : string) : string :=
  if regex_test value then value else term st.

Definition setTerm (t : string) (st : NavState) : NavState :=
  {| term := t; replaceTerm := replaceTerm st; sar := sar st |}.

Definition setReplaceTerm (t : string) (st : NavState) : NavState :=
  {| term := term st; replaceTerm := t; sar := sar st |}.

Definition setSar (b : bool) (st : NavState) : NavState :=
  {| term := term st; replaceTerm := replaceTerm st; sar := b |}.

Definition handleProcessClick (scan retag clean_db : bool) : list Call :=
  [handleProcessPhotos scan retag clean_db].

Definition resetTerms (st : NavState) : NavState :=
  setReplaceTerm "" (setTerm "" st).

Definition searchAndReplaceSwitch (st : NavState) : NavState :=
  resetTerms (setSar (negb (sar st)) st).

(** [handleChange(e)], [value] is [e.target.value] *)
Definition handleChange (record : RecordT) (value : string) (st : NavState)
    : NavState * list Call :=
  let calls :=
    if negb (sar st) then [handleSearch record (validateTerm st value)] else [] in
  (setTerm (validateTerm st value) st, calls).

(** [handleReplaceChange(e)] *)
Definition handleReplaceChange (value : string) (st : NavState) : NavState :=
  setReplaceTerm (validateTerm st value) st.

Definition handleReplace (st : NavState) : NavState * list Call :=
  (resetTerms st, [handleSearchAndReplace (term st) (replaceTerm st)]).

Definition pruneTags : list Call := [handlePruneTags].

(** [getRecords()]: the record of the props is changed in place and handed
    to [handleGetRecords] *)
Definition getRecords (record : RecordT) : RecordT * list Call :=
  let record := assign_page 1 record in
  (record, [handleGetRecords record]).

Definition bulk_remove_tags_unlock : list Call := [handleBulkRemoveTags].

(** the characters the specification lists for a term: letters, digits,
    and . / + - ' ? : | ( ) space and the double quote *)
Definition allowed_chars : list ascii :=
  list_ascii_of_string
    "abcdefghijklmnopqrstuvwxyzABCDEFGHIJKLMNOPQRSTUVWXYZ0123456789./+-'?:|() "
  ++ ["034"%char].

(** the buttons of the toolbar, in the order of the JSX *)
Inductive Button :=
  | BtnRefresh
  | BtnScan
  | BtnRetag
  | BtnCleanDb
  | BtnPruneTags
  | BtnBulkRemoveTags
  | BtnSearchAndReplaceSwitch
  | BtnReplace.

(** the buttons that start a batch job or lead to one *)
Definition batch_job (b : Button) : bool :=
  match b with
  | BtnRefresh => false
  | _ => true
  end.

(** the replace button is rendered when [sar] and both terms are non-empty *)
Definition rendered (b : Button) (st : NavState) : bool :=
  match b with
  | BtnReplace =>
      sar st && truthy (VStr (term st)) && truthy (VStr (replaceTerm st))
  | _ => true
  end.

(** A click: what the [onClick] of the button does to the cells and to the
    record of the props, and the callbacks it calls.  [onClick] is [null]
    for an admin button when [userIsAdmin] is falsy. *)
Definition click (userIsAdmin : value) (b : Button) (record : RecordT)
    (st : NavState) : NavState * RecordT * list Call :=
  if negb (rendered b st) then (st, record, []) else
  match b with
  | BtnRefresh => let '(r, c) := getRecords record in (st, r, c)
  | BtnScan =>
      if truthy userIsAdmin
      then (st, record, handleProcessClick true false false)
      else (st, record, [])
  | BtnRetag =>
      if truthy userIsAdmin
      then (st, record, handleProcessClick false true false)
      else (st, record, [])
  | BtnCleanDb =>
      if truthy userIsAdmin
      then (st, record, handleProcessClick false false true)
      else (st, record, [])
  | BtnPruneTags =>
      if truthy userIsAdmin then (st, record, pruneTags) else (st, record, [])
  | BtnBulkRemoveTags =>
      if truthy userIsAdmin
      then (st, record, bulk_remove_tags_unlock)
      else (st, record, [])
  | BtnSearchAndReplaceSwitch =>
      if truthy userIsAdmin
      then (searchAndReplaceSwitch st, record, [])
      else (st, record, [])
  | BtnReplace =>
      if truthy userIsAdmin
      then let '(st', c) := handleReplace st in (st', record, c)
      else (st, record, [])
  end.

End Nav.

(** ** The component over time: user actions and settled requests *)

Module Machine.

Import App.

(** What a user (or a child component through its props) can ask of [App]. *)
Inductive Action :=
  | Mount (csrftoken token : value)
  | SetAuthentication (token : value)
  | SetMessage (message messageClass : value)
  | GetRecords (record : option RecordT) (url : value) (notifyResponse : bool)
  | ReprocessRecord (record : option (gmap string value)) (notifyResponse : bool)
  | GetTagSuggestions (term itemID : value) (notifyResponse : bool)
  | SearchAndReplace (searchTerm replaceTerm : string) (notifyResponse : bool)
  | PruneTags (notifyResponse : bool)
  | BulkRemoveTags (notifyResponse : bool)
  | ProcessPhotos (retag scan clean_db notifyResponse : bool)
  | Update (recordItem : gmap string value) (tags updateMode updateParams : value)
           (notifyResponse : bool)
  | Refresh.

(** A request in flight: the action it goes back to, the call, and the
    callbacks that wait for it.  The record inside a [CbGetRecords] in
    flight is the content the record had at dispatch. *)
Record Pending := {
  origin : nat;
  request : Request;
  callbacks : Callbacks
}.

Record System := {
  app : State;
  pending : list Pending;
  actions : nat
}.

Definition in_flight (a : nat) (d : list (Request * Callbacks)) : list Pending :=
  map (λ rc, {| origin := a; request := fst rc; callbacks := snd rc |}) d.

(** the requests in flight that go back to action [a] *)
Definition outstanding (a : nat) (sys : System) : list Pending :=
  List.filter (λ p, Nat.eqb (origin p) a) (pending sys).

Section Run.

Variable same_ref : value → value → bool.
Variable processRequest : Request → bool.

(** The handler behind each action.  [Refresh] is the green button of the
    toolbar: [Nav.getRecords] on [this.state.record] itself, which the data
    table hands down together with [getRecordsHandler]. *)
Definition perform (a : Action) (s : State) : State * list (Request * Callbacks) :=
  match a with
  | Mount csrftoken token =>
      componentDidMount processRequest csrftoken token s
  | SetAuthentication token => setAuthentication processRequest token s
  | SetMessage m c => (setMessage m c s, [])
  | GetRecords record url n => getRecordsHandler processRequest record url n s
  | ReprocessRecord record n => reprocessRecordHandler processRequest record n s
  | GetTagSuggestions term itemID n =>
      tagSuggestionsHandler processRequest term itemID n s
  | SearchAndReplace st rt n => searchAndReplaceHandler processRequest st rt n s
  | PruneTags n => handlePruneTags processRequest n s
  | BulkRemoveTags n => handleBulkRemoveTags processRequest n s
  | ProcessPhotos retag scan clean_db n =>
      handleProcessPhotos processRequest retag scan clean_db n s
  | Update item tags mode params n =>
      handleUpdate processRequest item tags mode params n s
  | Refresh =>
      let '(record, _) := Nav.getRecords (st_record s) in
      getRecordsHandler processRequest (Some record) VNull true
                        (setState_record record s)
  end.

(** a user action runs its handler to the end *)
Definition act (a : Action) (sys : System) : System :=
  let '(s, d) := perform a (app sys) in
  {| app := s;
     pending := pending sys ++ in_flight (actions sys) d;
     actions := S (actions sys) |}.

(** the [i]-th request in flight is settled and its callback runs *)
Definition settle_at (i : nat) (o : Settlement) (sys : System) : option System :=
  match pending sys !! i with
  | Some p =>
      let '(s, d) := settle same_ref processRequest (callbacks p) o (app sys) in
      Some {| app := s;
              pending := delete i (pending sys) ++ in_flight (origin p) d;
              actions := actions sys |}
  | None => None
  end.

Inductive step : System → System → Prop :=
  | step_act a sys : step sys (act a sys)
  | step_settle i o sys sys' : settle_at i o sys = Some sys' → step sys sys'.

Definition start (env : Env) : System :=
  {| app := initialState env; pending := []; actions := 0%nat |}.

Inductive reachable (env : Env) : System → Prop :=
  | reachable_start : reachable env (start env)
  | reachable_step sys sys' :
      reachable env sys → step sys sys' → reachable env sys'.

End Run.

End Machine.

(** ** Statements of the specification, and concrete runs *)

Module Claims.

Import App.

(** An oracle for [same_ref] is sound when it only identifies equal values. *)
Definition sound_ref (same_ref : value → value → bool) : Prop :=
  ∀ a b, same_ref a b = true → a = b.

(** The admin value a GET-photos response asserts, by the words of the
    specification: the [user_is_admin] of the first element of its
    [results] when there is one and it has the field, otherwise its
    top-level [user_is_admin] when present, otherwise [false]. *)
Definition asserted_by_response (d : ResponseData) : value :=
  let top :=
    match r_fields d !! "user_is_admin" with
    | Some v => v
    | None => VBool false
    end in
  match r_results d with
  | Some (r0 :: _) =>
      match r0 !! "user_is_admin" with
      | Some v => v
      | None => top
      end
  | _ => top
  end.

(** The admin value after a GET-photos response has been merged into the
    record whose data was [previous]: as [asserted_by_response], except
    that a response that carries [results] and no top-level
    [user_is_admin] leaves the top-level [user_is_admin] of the previous
    data in place as the fallback; [undefined] counts as [false]. *)
Definition admin_after_response (previous : gmap string value)
    (d : ResponseData) : value :=
  let top :=
    match r_fields d !! "user_is_admin" with
    | Some v => v
    | None =>
        match r_results d with
        | Some _ =>
            match clone_obj previous !! "user_is_admin" with
            | Some v => v
            | None => VBool false
            end
        | None => VBool false
        end
    end in
  default_param (VBool false)
    match r_results d with
    | Some (r0 :: _) =>
        match r0 !! "user_is_admin" with
        | Some v => v
        | None => top
        end
    | _ => top
    end.


(** [record.data] as one object *)
Definition stored_data_obj (d : Data) : gmap string value :=
  <["results" := VArr (map VObj (results d))]> (dfields d).

(** "the stored record's data equals the response's data" *)
Definition data_replaced_wholesale (same_ref : value → value → bool)
    (record : RecordT) (notifyResponse : bool) (d : ResponseData) (s : State)
    : Prop :=
  stored_data_obj
    (data (st_record (getRecords_then same_ref record notifyResponse (Some d) s)))
  = data_obj d.

(** "the affected record item equals the response body": every item of the
    stored results that has the [id] of the response. *)
Definition item_replaced_wholesale (same_ref : value → value → bool)
    (notifyResponse : bool) (d : ResponseData) (s : State) : Prop :=
  ∀ r, r ∈ results (data (st_record (update_then same_ref notifyResponse (Some d) s))) →
       get r "id" = get (data_obj d) "id" → r = data_obj d.

(** the banner every [catch] branch is said to set *)
Definition generic_banner : Message :=
  {| message := VStr "An API error has occurred";
     messageClass := VStr "alert alert-danger" |}.

(** "a network failure is converted into the banner An API error has
    occurred with class alert alert-danger", for the handler whose
    callbacks are [cb] *)
Definition failure_gives_generic_banner (same_ref : value → value → bool)
    (processRequest : Request → bool) (cb : Callbacks) (e : value) (s : State)
    : Prop :=
  st_message (fst (settle same_ref processRequest cb (Rejected e) s))
  = generic_banner.

(** "with [authMeta.userIsAdmin = false] no network request is dispatched",
    for one invocation of a handler *)
Definition admin_only_dispatch
    (handler : State → State * list (Request * Callbacks)) (s : State) : Prop :=
  userIsAdmin (st_authMeta s) = VBool false → snd (handler s) = [].

(** what a [catch] branch appends to the generic text *)
Definition catch_suffix (cb : Callbacks) : string :=
  match cb with
  | CbProcessPhotos _ _ _ _ => ". Photo processing initiation failed!"
  | CbUpdate _ => ". Updating tags failed!"
  | _ => ""
  end.

(** What every state the component goes through satisfies. *)
Definition state_ok (s : State) : Prop :=
  1 ≤ page (meta (st_record s)) ∧ userIsAdmin (st_authMeta s) ≠ VUndefined.

(** the actions the requests in flight go back to *)
Definition origins (sys : Machine.System) : list nat :=
  map Machine.origin (Machine.pending sys).

(** No two requests in flight go back to the same action, and each goes
    back to an action that has happened. *)
Definition pending_ok (sys : Machine.System) : Prop :=
  NoDup (origins sys) ∧ Forall (λ a, (a < Machine.actions sys)%nat) (origins sys).

End Claims.

Module Examples.

Import App Machine Claims.

Definition env0 : Env :=
  {| REACT_APP_ROWS_PER_TABLE := VStr "5";
     REACT_APP_PAGER_MAIN_SIZE := VStr "5";
     REACT_APP_PAGER_END_SIZE := VStr "3";
     REACT_APP_GREETING := VStr "Hello" |}.

(** [processRequest] always gives a promise *)
Definition promise (r : Request) : bool := true.

(** the component after it has mounted with a session token: authenticated,
    not an admin, one GET-photos request in flight *)
Definition mounted : System :=
  act promise (Mount (VStr "csrf") (VStr "token")) (start env0).

(** a response without results that asserts an admin *)
Definition admin_no_results : ResponseData :=
  {| r_results := None; r_fields := {[ "user_is_admin" := VBool true ]} |}.

(** a response with one photo item and a count, asserting nothing about
    the admin status *)
Definition one_photo : ResponseData :=
  {| r_results := Some [ {[ "id" := VNum 7 ]} ];
     r_fields := {[ "count" := VNum 1 ]} |}.

(** the [i]-th request in flight is settled, if there is one *)
Definition settled (i : nat) (o : Settlement) (sys : System) : System :=
  default sys (settle_at no_alias promise i o sys).

(** the first request is answered by [admin_no_results] *)
Definition after_first : System :=
  settled 0 (Resolved (Some admin_no_results)) mounted.

Definition state_after_first : State := app after_first.

(** the records are fetched again and [one_photo] comes back *)
Definition state_after_second : State :=
  getRecords_then no_alias (st_record state_after_first) true (Some one_photo)
                  state_after_first.

(** the same run in the event model: the refresh is an action of its own *)
Definition after_second : System :=
  settled 0 (Resolved (Some one_photo))
          (act promise (GetRecords None VNull true) after_first).

(** a response with one photo item that has a file name *)
Definition named_photo : ResponseData :=
  {| r_results := Some [ <["id" := VNum 7]> {[ "file_name" := VStr "a.jpg" ]} ];
     r_fields := ∅ |}.

(** the state that shows this photo *)
Definition showing_photo : State :=
  getRecords_then no_alias (st_record state_after_first) true (Some named_photo)
                  state_after_first.

(** the body of a PATCH response for that photo *)
Definition patched_photo : ResponseData :=
  {| r_results := None;
     r_fields := <["id" := VNum 7]> {[ "tags" := VArr [VStr "sea"] ]} |}.

(** the toolbar in search-and-replace mode *)
Definition replacing : Nav.NavState :=
  {| Nav.term := "cat"; Nav.replaceTerm := "dog"; Nav.sar := true |}.

End Examples.

(** ** The session storage behind [setAuthentication] *)

Module Session.

(** [window.sessionStorage]: keys and items are strings *)

(** [setSessionStorage({ key, value })] *)
Definition setSessionStorage (key value : string)
    (storage : gmap string string) : gmap string string :=
  <[key := value]> storage.

(** [getSessionStorage(key)]; [getItem] gives [null] for a missing key *)
Definition getSessionStorage (key : string) (storage : gmap string string) : value :=
  match storage !! key with
  | Some v => VStr v
  | None => VNull
  end.

(** [deleteSessionStorage(keys = [])]: the storage afterwards and the
    value returned *)
Definition deleteSessionStorage (keys : list string)
    (storage : gmap string string) : gmap string string * bool :=
  (if (0 <? List.length keys)%nat
   then foldl (λ st k, delete k st) storage keys
   else storage,
   true).

(** [setAuthentication()] with the token it reads from the storage *)
Definition setAuthentication (processRequest : App.Request → bool)
    (storage : gmap string string) (s : App.State)
    : App.State * list (App.Request * App.Callbacks) :=
  App.setAuthentication processRequest (getSessionStorage "token" storage) s.

End Session.

(** ** The toolbar over time *)

Module NavRun.

Import App Nav.

(** What the user can do to the toolbar. *)
Inductive Event :=
  | Change (value : string)
  | ReplaceChange (value : string)
  | Click (b : Button).

(** the cells at the first render *)
Definition initial : NavState :=
  {| term := ""; replaceTerm := ""; sar := false |}.

(** One event, under the props [authMeta.userIsAdmin] and [record] of the
    render it happens in.  The replace input is there in search-and-replace
    mode only. *)
Definition handle (userIsAdmin : value) (record : RecordT) (ev : Event)
    (st : NavState) : NavState * list Call :=
  match ev with
  | Change v => handleChange record v st
  | ReplaceChange v =>
      if sar st then (handleReplaceChange v st, []) else (st, [])
  | Click b => let '(st', _, c) := click userIsAdmin b record st in (st', c)
  end.

(** a sequence of events, each with the props of its render: the cells at
    the end and the callbacks called on the way *)
Fixpoint run (evs : list (value * RecordT * Event)) (st : NavState)
    : NavState * list Call :=
  match evs with
  | [] => (st, [])
  | (u, r, ev) :: rest =>
      let '(st', c) := handle u r ev st in
      let '(st'', cs) := run rest st' in
      (st'', (c ++ cs)%list)
  end.

(** the [disabled] attribute of a button *)
Definition disabled (userIsAdmin : value) (b : Button) : bool :=
  match b with
  | BtnRefresh => false
  | _ => negb (truthy userIsAdmin)
  end.

(** both cells hold terms the regular expression accepts *)
Definition terms_valid (st : NavState) : Prop :=
  regex_test (term st) = true ∧ regex_test (replaceTerm st) = true.

(** What a call made by the toolbar carries, given the admin flag of the
    render and the cells before the event. *)
Definition call_ok (userIsAdmin : value) (st : NavState) (c : Call) : Prop :=
  match c with
  | handleGetRecords r => page (meta r) = 1
  | handleProcessPhotos scan retag clean_db =>
      truthy userIsAdmin = true
      ∧ (Nat.b2n scan + Nat.b2n retag + Nat.b2n clean_db = 1)%nat
  | handleSearch _ t => sar st = false ∧ regex_test t = true
  | handleSearchAndReplace s r =>
      truthy userIsAdmin = true ∧ sar st = true
      ∧ s ≠ "" ∧ r ≠ "" ∧ regex_test s = true ∧ regex_test r = true
  | handlePruneTags => truthy userIsAdmin = true
  | handleBulkRemoveTags => truthy userIsAdmin = true
  end.

End NavRun.

(** ** Readings of callbacks and actions used in the statements *)

Module Reading.

Import App Machine.

(** the [notifyResponse] a pair of callbacks captured *)
Definition notifies (cb : Callbacks) : bool :=
  match cb with
  | CbGetRecords _ n | CbReprocessRecord n | CbTagSuggestions _ n
  | CbSearchAndReplace n | CbPruneTags n | CbBulkRemoveTags n
  | CbProcessPhotos _ _ _ n | CbUpdate n => n
  end.

(** the response is one the [then] callback of the tag suggestions throws on *)
Definition lacks_results (cb : Callbacks) (d : ResponseData) : bool :=
  match cb, r_results d with
  | CbTagSuggestions _ _, None => true
  | _, _ => false
  end.

(** the session token an action brings along, if it reads one *)
Definition token_of (a : Action) : option value :=
  match a with
  | Mount _ token | SetAuthentication token => Some token
  | _ => None
  end.

(** the action reads no token, or a falsy one *)
Definition without_token (a : Action) : bool :=
  match token_of a with
  | Some t => negb (truthy t)
  | None => true
  end.

(** user actions in a row, with no response in between *)
Definition acts (processRequest : Request → bool) (l : list Action)
    (sys : System) : System :=
  foldl (λ sys a, act processRequest a sys) sys l.

(** every field of the record is a JSON value *)
Definition json_record (r : RecordT) : Prop :=
  map_Forall (λ _, json) (mfields (meta r))
  ∧ map_Forall (λ _, json) (dfields (data r))
  ∧ Forall (map_Forall (λ _, json)) (results (data r)).

End Reading.

(** * Properties *)

Import App Machine Claims.

(** case analysis on the conditions of the [if]s of the goal *)
Ltac case_ifs :=
  repeat match goal with
         | |- context [if ?c then _ else _] => destruct c eqn:?; simpl
         end.

(** ** Strict equality and cloning *)

Lemma strict_eq_sound same_ref a b :
  sound_ref same_ref → strict_eq same_ref a b = true → a = b.
Proof.
  intros Hs.
  destruct a, b; simpl; try discriminate; try reflexivity; intros H.
  - apply Bool.eqb_prop in H. by subst.
  - apply Z.eqb_eq in H. by subst.
  - apply String.eqb_eq in H. by subst.
  - by apply Hs.
  - by apply Hs.
Qed.

Lemma no_alias_sound : sound_ref no_alias.
Proof. intros a b H. discriminate H. Qed.

Lemma clone_prop_defined x v : clone_prop x = Some v → v ≠ VUndefined.
Proof.
  destruct x; simpl; intros H; inversion H; subst; try discriminate.
Qed.

Lemma clone_obj_lookup_defined (o : gmap string value) k v :
  clone_obj o !! k = Some v → v ≠ VUndefined.
Proof.
  unfold clone_obj. rewrite lookup_omap.
  destruct (o !! k) as [x|]; simpl; [apply clone_prop_defined | discriminate].
Qed.

Lemma json_defined v : json v → v ≠ VUndefined.
Proof. intros H. inversion H; discriminate. Qed.

(** cloning a JSON value gives the value back *)
Lemma jsonClone_json v (H : json v) : jsonClone v = v.
Proof.
  revert v H. fix jsonClone_json 2. intros v H.
  destruct H as [| | | |l Hl|o Ho]; try reflexivity.
  - simpl. f_equal.
    induction Hl as [|x l Hx Hl IH]; [reflexivity|].
    simpl. rewrite IH. f_equal.
    rewrite (jsonClone_json x Hx). destruct x; try reflexivity.
    by apply json_defined in Hx.
  - simpl. f_equal. apply map_eq. intros k. rewrite lookup_omap.
    destruct (o !! k) as [x|] eqn:E; [|reflexivity]. simpl.
    pose proof (Ho k x E) as Hx.
    rewrite (jsonClone_json x Hx). destruct x; try reflexivity.
    by apply json_defined in Hx.
Qed.

(** a field holding a JSON value survives the clone of its object *)
Lemma clone_obj_lookup_json (o : gmap string value) k v :
  o !! k = Some v → json v → clone_obj o !! k = Some v.
Proof.
  intros Hk Hv. unfold clone_obj. rewrite lookup_omap, Hk. simpl.
  unfold clone_prop. rewrite (jsonClone_json v Hv).
  destruct v; try reflexivity. by apply json_defined in Hv.
Qed.

Lemma clone_obj_lookup_None (o : gmap string value) k :
  o !! k = None → clone_obj o !! k = None.
Proof. intros Hk. unfold clone_obj. by rewrite lookup_omap, Hk. Qed.

Lemma clone_obj_json (o : gmap string value) :
  map_Forall (λ _, json) o → clone_obj o = o.
Proof.
  intros Ho. apply map_eq. intros k.
  destruct (o !! k) as [v|] eqn:E.
  - apply clone_obj_lookup_json; [exact E | by apply (Ho k)].
  - by apply clone_obj_lookup_None.
Qed.

Lemma get_assign_source (target source : gmap string value) k v :
  source !! k = Some v → assign target source !! k = Some v.
Proof. intros H. unfold assign. by apply lookup_union_Some_l. Qed.

Lemma get_assign_target (target source : gmap string value) k :
  source !! k = None → assign target source !! k = target !! k.
Proof. intros H. unfold assign. by rewrite lookup_union_r. Qed.

Lemma lookup_assign (target source : gmap string value) k :
  assign target source !! k =
  match source !! k with
  | Some v => Some v
  | None => target !! k
  end.
Proof.
  destruct (source !! k) as [v|] eqn:E.
  - by apply get_assign_source.
  - by apply get_assign_target.
Qed.

(** ** The request descriptors *)

(** C6: every descriptor of [apiOptions] carries the verb the
    specification lists for it: GET for fetching photos, fetching tags,
    search-and-replace, reprocess and process-photos; DELETE for prune tags
    and bulk remove tags; PATCH for updating photos and changing the
    password; POST for authentication and logout.  The requests of the
    handlers carry these descriptors. *)
Theorem C6_descriptor_verbs :
  (Api.method_of "GET_PHOTOS" = Some Api.GET
   ∧ Api.method_of "GET_TAGS" = Some Api.GET
   ∧ Api.method_of "SEARCH_AND_REPLACE" = Some Api.GET
   ∧ Api.method_of "REPROCESS_RECORD" = Some Api.GET
   ∧ Api.method_of "PROCESS_PHOTOS" = Some Api.GET
   ∧ Api.method_of "PRUNE_TAGS" = Some Api.DELETE
   ∧ Api.method_of "BULK_REMOVE_TAGS" = Some Api.DELETE
   ∧ Api.method_of "UPDATE_PHOTOS" = Some Api.PATCH
   ∧ Api.method_of "PATCH_CHANGE_PW" = Some Api.PATCH
   ∧ Api.method_of "POST_AUTH" = Some Api.POST
   ∧ Api.method_of "POST_LOGOUT" = Some Api.POST)
  ∧ map fst Api.apiOptions =
      [ "GET_PHOTOS"; "GET_TAGS"; "PRUNE_TAGS"; "BULK_REMOVE_TAGS";
        "SEARCH_AND_REPLACE"; "REPROCESS_RECORD"; "PROCESS_PHOTOS";
        "UPDATE_PHOTOS"; "POST_AUTH"; "POST_LOGOUT"; "PATCH_CHANGE_PW" ]
  ∧ ∀ r : Request,
      Api.method (apiMode r) =
      match r with
      | ReqPruneTags | ReqBulkRemoveTags => Api.DELETE
      | ReqUpdate _ _ _ _ => Api.PATCH
      | _ => Api.GET
      end.
Proof.
  split; [|split].
  - vm_compute. repeat split.
  - reflexivity.
  - intros []; reflexivity.
Qed.

(** ** [_setRecordState] and [setAuthorized] *)

Section RecordState.

Variable same_ref : value → value → bool.

Lemma default_param_defined d v : d ≠ VUndefined → default_param d v ≠ VUndefined.
Proof. intros Hd. destruct v; simpl; try discriminate. exact Hd. Qed.

Lemma default_param_id d v : v ≠ VUndefined → default_param d v = v.
Proof. intros Hv. destruct v; simpl; try reflexivity. by destruct Hv. Qed.

Lemma setAuthorized_record role state s :
  st_record (setAuthorized same_ref role state s) = st_record s.
Proof.
  unfold setAuthorized.
  destruct (strict_eq _ _ _); [|reflexivity].
  destruct (negb _); reflexivity.
Qed.

Lemma setAuthorized_authenticated role state s :
  authenticated (st_authMeta (setAuthorized same_ref role state s))
  = authenticated (st_authMeta s).
Proof.
  unfold setAuthorized.
  destruct (strict_eq _ _ _); [|reflexivity].
  destruct (negb _); reflexivity.
Qed.

(** after [setAuthorized({role: "admin", state})] the flag is [state], with
    [false] standing in for [undefined] *)
Lemma setAuthorized_admin state s :
  sound_ref same_ref →
  userIsAdmin (st_authMeta (setAuthorized same_ref (VStr "admin") state s))
  = default_param (VBool false) state.
Proof.
  intros Hs. unfold setAuthorized.
  assert (strict_eq same_ref (default_param (VStr "admin") (VStr "admin"))
                    (VStr "admin") = true) as -> by reflexivity.
  destruct (strict_eq same_ref (default_param (VBool false) state)
                      (userIsAdmin (st_authMeta s))) eqn:E; simpl.
  - symmetry. by apply (strict_eq_sound same_ref).
  - reflexivity.
Qed.

Lemma setAuthorized_admin_defined role state s :
  userIsAdmin (st_authMeta s) ≠ VUndefined →
  userIsAdmin (st_authMeta (setAuthorized same_ref role state s)) ≠ VUndefined.
Proof.
  intros Hd. unfold setAuthorized.
  destruct (strict_eq _ _ _); [|exact Hd].
  destruct (negb _); [|exact Hd]. simpl.
  by apply default_param_defined.
Qed.

Lemma adminStatus_assign_page p r :
  adminStatus (data (assign_page p r)) = adminStatus (data r).
Proof. reflexivity. Qed.

(** the record stored by [_setRecordState] is the one it was given, with the
    page clamped *)
Lemma _setRecordState_record newRecord s :
  st_record (_setRecordState same_ref newRecord s)
  = assign_page (if page (meta newRecord) <? 1 then 1 else page (meta newRecord))
                newRecord.
Proof. reflexivity. Qed.

Lemma _setRecordState_page_ge_1 newRecord s :
  1 ≤ page (meta (st_record (_setRecordState same_ref newRecord s))).
Proof.
  rewrite _setRecordState_record. simpl.
  destruct (page (meta newRecord) <? 1) eqn:E; [lia|].
  apply Z.ltb_ge in E. exact E.
Qed.

Lemma _setRecordState_authMeta newRecord s :
  st_authMeta (_setRecordState same_ref newRecord s)
  = if negb (strict_eq same_ref (adminStatus (data newRecord))
                       (userIsAdmin (st_authMeta s)))
    then st_authMeta (setAuthorized same_ref (VStr "admin")
                        (adminStatus (data newRecord)) s)
    else st_authMeta s.
Proof.
  unfold _setRecordState. rewrite adminStatus_assign_page.
  destruct (negb _); reflexivity.
Qed.

Lemma _setRecordState_authenticated newRecord s :
  authenticated (st_authMeta (_setRecordState same_ref newRecord s))
  = authenticated (st_authMeta s).
Proof.
  rewrite _setRecordState_authMeta.
  destruct (negb _); [apply setAuthorized_authenticated | reflexivity].
Qed.

(** the admin flag after [_setRecordState] is the [adminStatus] of the
    record it was given *)
Lemma _setRecordState_admin newRecord s :
  sound_ref same_ref →
  userIsAdmin (st_authMeta s) ≠ VUndefined →
  userIsAdmin (st_authMeta (_setRecordState same_ref newRecord s))
  = default_param (VBool false) (adminStatus (data newRecord)).
Proof.
  intros Hs Hd. rewrite _setRecordState_authMeta.
  destruct (strict_eq same_ref (adminStatus (data newRecord))
                      (userIsAdmin (st_authMeta s))) eqn:E; simpl.
  - apply (strict_eq_sound same_ref) in E; [|exact Hs].
    rewrite <- E in *. symmetry. by apply default_param_id.
  - by apply setAuthorized_admin.
Qed.

Lemma _setRecordState_admin_defined newRecord s :
  userIsAdmin (st_authMeta s) ≠ VUndefined →
  userIsAdmin (st_authMeta (_setRecordState same_ref newRecord s)) ≠ VUndefined.
Proof.
  intros Hd. rewrite _setRecordState_authMeta.
  destruct (negb _); [by apply setAuthorized_admin_defined | exact Hd].
Qed.

Lemma _setRecordState_other newRecord s :
  st_message (_setRecordState same_ref newRecord s) = st_message s
  ∧ st_tagSuggestions (_setRecordState same_ref newRecord s) = st_tagSuggestions s.
Proof.
  unfold _setRecordState, setAuthorized. by case_ifs.
Qed.

End RecordState.

(** ** What the handlers and the callbacks do to the state *)

Section HandlerFacts.

Variable same_ref : value → value → bool.
Variable processRequest : Request → bool.

Lemma jsonClone_defined v : v ≠ VUndefined → jsonClone v ≠ VUndefined.
Proof. destruct v; simpl; intros H; try discriminate. by destruct H. Qed.

Lemma clone_authMeta_admin_defined a :
  userIsAdmin a ≠ VUndefined → userIsAdmin (clone_authMeta a) ≠ VUndefined.
Proof.
  intros H. unfold clone_authMeta. simpl.
  destruct (userIsAdmin a); simpl; try discriminate. by destruct H.
Qed.

Lemma state_ok_frame s s' :
  st_record s' = st_record s → st_authMeta s' = st_authMeta s →
  state_ok s → state_ok s'.
Proof. unfold state_ok. intros -> ->. done. Qed.

Lemma state_ok_setMessage m c s : state_ok s → state_ok (setMessage m c s).
Proof. by apply state_ok_frame. Qed.

Lemma state_ok_clearTagSuggestions s : state_ok s → state_ok (clearTagSuggestions s).
Proof. by apply state_ok_frame. Qed.

Lemma state_ok__setRecordState newRecord s :
  state_ok s → state_ok (_setRecordState same_ref newRecord s).
Proof.
  intros [_ Hd]. split.
  - apply _setRecordState_page_ge_1.
  - by apply _setRecordState_admin_defined.
Qed.

(** the handlers that only dispatch leave the state as it is *)
Lemma getRecordsHandler_state record url n s :
  fst (getRecordsHandler processRequest record url n s) = s.
Proof. unfold getRecordsHandler. by case_ifs. Qed.

Lemma searchAndReplaceHandler_state st rt n s :
  fst (searchAndReplaceHandler processRequest st rt n s) = s.
Proof. unfold searchAndReplaceHandler. by case_ifs. Qed.

Lemma handlePruneTags_state n s : fst (handlePruneTags processRequest n s) = s.
Proof. unfold handlePruneTags. by case_ifs. Qed.

Lemma handleBulkRemoveTags_state n s :
  fst (handleBulkRemoveTags processRequest n s) = s.
Proof. unfold handleBulkRemoveTags. by case_ifs. Qed.

Lemma handleProcessPhotos_state retag scan clean_db n s :
  fst (handleProcessPhotos processRequest retag scan clean_db n s) = s.
Proof. unfold handleProcessPhotos. by case_ifs. Qed.

Lemma handleUpdate_state item tags mode params n s :
  fst (handleUpdate processRequest item tags mode params n s) = s.
Proof. unfold handleUpdate. by case_ifs. Qed.

Lemma setAuthentication_state token s :
  fst (setAuthentication processRequest token s)
  = setState_authMeta
      {| authenticated := truthy token;
         userIsAdmin := userIsAdmin (clone_authMeta (st_authMeta s)) |} s.
Proof. unfold setAuthentication. apply getRecordsHandler_state. Qed.

Lemma state_ok_setAuthentication token s :
  state_ok s → state_ok (fst (setAuthentication processRequest token s)).
Proof.
  intros [Hp Hd]. rewrite setAuthentication_state. split; [exact Hp|].
  simpl. destruct (userIsAdmin (st_authMeta s)); simpl; try discriminate.
  by destruct Hd.
Qed.

Lemma state_ok_getRecords_then record n response s :
  state_ok s → state_ok (getRecords_then same_ref record n response s).
Proof.
  intros H. unfold getRecords_then. destruct response as [d|]; [|exact H].
  apply state_ok__setRecordState. destruct n; [by apply state_ok_setMessage | exact H].
Qed.

Lemma state_ok_update_then n response s :
  state_ok s → state_ok (update_then same_ref n response s).
Proof.
  intros H. unfold update_then. destruct response as [d|]; [|exact H].
  destruct n; [apply state_ok_setMessage|]; by apply state_ok__setRecordState.
Qed.

Lemma state_ok_report_then text n response s :
  state_ok s → state_ok (report_then text n response s).
Proof.
  intros H. unfold report_then. destruct response; [|exact H].
  destruct n; [by apply state_ok_setMessage | exact H].
Qed.

Lemma state_ok_catch_callback cb e s :
  state_ok s → state_ok (catch_callback same_ref cb e s).
Proof.
  intros H. destruct cb; simpl; unfold report_catch, getRecords_catch;
    try by apply state_ok_setMessage.
  apply state_ok__setRecordState. by apply state_ok_setMessage.
Qed.

(** the state invariant is kept by every user action *)
Lemma state_ok_perform a s :
  state_ok s → state_ok (fst (perform processRequest a s)).
Proof.
  intros H. destruct a; simpl.
  - apply state_ok_setAuthentication. by apply (state_ok_frame s).
  - by apply state_ok_setAuthentication.
  - by apply state_ok_setMessage.
  - by rewrite getRecordsHandler_state.
  - by apply state_ok_clearTagSuggestions.
  - by apply state_ok_clearTagSuggestions.
  - by rewrite searchAndReplaceHandler_state.
  - by rewrite handlePruneTags_state.
  - by rewrite handleBulkRemoveTags_state.
  - by rewrite handleProcessPhotos_state.
  - by rewrite handleUpdate_state.
  - rewrite getRecordsHandler_state. destruct H as [_ Hd]. split; [simpl; lia | exact Hd].
Qed.

(** ... and by every settled request *)
Lemma state_ok_settle cb o s :
  state_ok s → state_ok (fst (settle same_ref processRequest cb o s)).
Proof.
  intros H. destruct o as [response|e]; simpl;
    [|by apply state_ok_catch_callback].
  destruct cb; simpl;
    try (by apply state_ok_report_then);
    try (by apply state_ok_getRecords_then);
    try (by apply state_ok_update_then).
  - unfold reprocessRecord_then. destruct response; [|exact H].
    destruct (getRecordsHandler _ _ _ _ _) as [s' d] eqn:E; simpl.
    apply (f_equal fst) in E. rewrite getRecordsHandler_state in E.
    simpl in E. subst s'.
    destruct notifyResponse; [by apply state_ok_setMessage | exact H].
  - unfold tagSuggestions_then. destruct response as [d|]; [|exact H].
    destruct (r_results d); simpl.
    + destruct notifyResponse; [by apply state_ok_setMessage | exact H].
    + unfold report_catch. apply state_ok_setMessage.
      destruct notifyResponse; [by apply state_ok_setMessage | exact H].
Qed.

(** a handler dispatches at most one request *)
Lemma perform_dispatch_le_1 a s :
  (List.length (snd (perform processRequest a s)) ≤ 1)%nat.
Proof.
  destruct a; simpl;
    unfold componentDidMount, setAuthentication, getRecordsHandler,
      reprocessRecordHandler, tagSuggestionsHandler, searchAndReplaceHandler,
      handlePruneTags, handleBulkRemoveTags, handleProcessPhotos, handleUpdate;
    simpl; try destruct record; case_ifs; simpl; lia.
Qed.

(** ... and so does a callback *)
Lemma settle_dispatch_le_1 cb o s :
  (List.length (snd (settle same_ref processRequest cb o s)) ≤ 1)%nat.
Proof.
  destruct o as [response|e]; simpl; [|lia].
  destruct cb; simpl; try lia.
  - unfold reprocessRecord_then. destruct response; simpl; [|lia].
    unfold getRecordsHandler. case_ifs; simpl; lia.
  - unfold tagSuggestions_then. destruct response as [d|]; simpl; [|lia].
    destruct (r_results d); simpl; lia.
Qed.

End HandlerFacts.

(** ** Invariants of the component over time *)

Section Invariants.

Variable same_ref : value → value → bool.
Variable processRequest : Request → bool.
Variable env : Env.

Lemma state_ok_initial : state_ok (initialState env).
Proof. split; simpl; [lia | discriminate]. Qed.

Lemma origins_in_flight a d : map origin (in_flight a d) = map (λ _, a) d.
Proof. unfold in_flight. rewrite map_map. reflexivity. Qed.

Lemma in_flight_le_1 a (d : list (Request * Callbacks)) :
  (List.length d ≤ 1)%nat → map origin (in_flight a d) = [] ∨ map origin (in_flight a d) = [a].
Proof.
  rewrite origins_in_flight.
  destruct d as [|x [|y d]]; simpl; intros H; [by left | by right | lia].
Qed.

Lemma NoDup_delete_lookup (l : list nat) i x :
  NoDup l → l !! i = Some x → NoDup (delete i l) ∧ x ∉ delete i l.
Proof.
  intros Hnd Hi.
  rewrite <- (take_drop_middle l i x Hi) in Hnd.
  rewrite delete_take_drop.
  apply NoDup_app in Hnd as (Ht & Hdisj & Hd).
  apply NoDup_cons in Hd as [Hx Hd].
  split.
  - apply NoDup_app. split; [exact Ht|]. split; [|exact Hd].
    intros y Hy Hy'. apply (Hdisj y Hy). by right.
  - intros Hin. apply elem_of_app in Hin as [Hin|Hin]; [|by apply Hx].
    apply (Hdisj x Hin). by left.
Qed.

Lemma pending_ok_start : pending_ok (start env).
Proof. split; [apply NoDup_nil_2 | apply Forall_nil_2]. Qed.

Lemma pending_ok_act a sys : pending_ok sys → pending_ok (act processRequest a sys).
Proof.
  intros [Hnd Hlt]. unfold act.
  pose proof (perform_dispatch_le_1 processRequest a (app sys)) as Hle.
  destruct (perform processRequest a (app sys)) as [s d]. simpl in Hle.
  unfold pending_ok, origins. simpl. rewrite map_app.
  assert (Forall (λ a0, (a0 < S (actions sys))%nat) (map origin (pending sys))) as Hlt'.
  { eapply Forall_impl; [exact Hlt|]. simpl. intros. lia. }
  destruct (in_flight_le_1 (actions sys) d Hle) as [-> | ->].
  - rewrite app_nil_r. by split.
  - split.
    + apply NoDup_app. split; [exact Hnd|]. split; [|apply NoDup_singleton].
      intros x Hx Hx'. apply list_elem_of_singleton in Hx'. subst x.
      rewrite Forall_forall in Hlt. specialize (Hlt _ Hx). lia.
    + apply Forall_app. split; [exact Hlt'|].
      apply Forall_singleton. lia.
Qed.

Lemma pending_ok_settle_at i o sys sys' :
  settle_at same_ref processRequest i o sys = Some sys' →
  pending_ok sys → pending_ok sys'.
Proof.
  unfold settle_at. intros Hs [Hnd Hlt].
  destruct (pending sys !! i) as [p|] eqn:Hi; [|discriminate].
  pose proof (settle_dispatch_le_1 same_ref processRequest (callbacks p) o (app sys)) as Hle.
  destruct (settle same_ref processRequest (callbacks p) o (app sys)) as [s d].
  simpl in Hle. inversion Hs; subst sys'; clear Hs.
  unfold pending_ok, origins in *. simpl.
  assert (map origin (pending sys) !! i = Some (origin p)) as Hi'.
  { rewrite list_lookup_fmap. by rewrite Hi. }
  assert (map origin (delete i (pending sys)) = delete i (map origin (pending sys))) as Hdel.
  { apply (list_fmap_delete origin). }
  rewrite map_app, Hdel.
  destruct (NoDup_delete_lookup _ _ _ Hnd Hi') as [Hnd' Hfresh].
  pose proof (Forall_delete _ _ i Hlt) as Hlt'.
  destruct (in_flight_le_1 (origin p) d Hle) as [-> | ->].
  - rewrite app_nil_r. by split.
  - split.
    + apply NoDup_app. split; [exact Hnd'|]. split; [|apply NoDup_singleton].
      intros x Hx Hx'. apply list_elem_of_singleton in Hx'. by subst x.
    + apply Forall_app. split; [exact Hlt'|].
      apply Forall_singleton.
      rewrite Forall_forall in Hlt. apply Hlt.
      apply list_elem_of_lookup. by exists i.
Qed.

Lemma state_ok_act a sys :
  state_ok (app sys) → state_ok (app (act processRequest a sys)).
Proof.
  intros H. unfold act.
  pose proof (state_ok_perform processRequest a (app sys) H) as H'.
  by destruct (perform processRequest a (app sys)).
Qed.

Lemma state_ok_settle_at i o sys sys' :
  settle_at same_ref processRequest i o sys = Some sys' →
  state_ok (app sys) → state_ok (app sys').
Proof.
  unfold settle_at. intros Hs H.
  destruct (pending sys !! i) as [p|]; [|discriminate].
  pose proof (state_ok_settle same_ref processRequest (callbacks p) o (app sys) H) as H'.
  destruct (settle same_ref processRequest (callbacks p) o (app sys)).
  by inversion Hs; subst.
Qed.

(** every state the component reaches is well formed *)
Lemma reachable_ok sys :
  reachable same_ref processRequest env sys → state_ok (app sys) ∧ pending_ok sys.
Proof.
  induction 1 as [|sys sys' _ [IHs IHp] Hstep].
  - split; [apply state_ok_initial | apply pending_ok_start].
  - destruct Hstep as [a sys | i o sys sys' Hs].
    + split; [by apply state_ok_act | by apply pending_ok_act].
    + split; [by eapply state_ok_settle_at | by eapply pending_ok_settle_at].
Qed.

(** with distinct origins, at most one request in flight goes back to a
    given action *)
Lemma NoDup_origin_filter (l : list Pending) a :
  NoDup (map origin l) →
  (List.length (List.filter (λ p, Nat.eqb (origin p) a) l) ≤ 1)%nat.
Proof.
  induction l as [|p l IH]; simpl; intros Hnd; [lia|].
  apply NoDup_cons in Hnd as [Hp Hnd].
  destruct (Nat.eqb (origin p) a) eqn:E; [|by apply IH].
  apply Nat.eqb_eq in E. simpl.
  assert (List.filter (λ p0, Nat.eqb (origin p0) a) l = []) as ->; [|simpl; lia].
  clear IH Hnd. induction l as [|q l IH]; [reflexivity|]. simpl.
  destruct (Nat.eqb (origin q) a) eqn:E'.
  - apply Nat.eqb_eq in E'. exfalso. apply Hp. simpl. rewrite E, E'. by left.
  - apply IH. intros Hin. apply Hp. simpl. by right.
Qed.

End Invariants.

(** ** The record state *)

Lemma mounted_reachable :
  reachable no_alias Examples.promise Examples.env0 Examples.mounted.
Proof.
  unfold Examples.mounted.
  eapply reachable_step; [apply reachable_start | apply step_act].
Defined.

(** C2: whatever record is handed to [_setRecordState], the record state
    stored afterwards has [meta.page >= 1]: a page below 1 is stored as 1
    and any other page is stored as it came; and in no state the component
    reaches, by whichever user actions, responses and failures, is the
    [meta.page] of the record state below 1. *)
Theorem C2_page_never_below_one :
  (∀ same_ref newRecord s,
     page (meta (st_record (_setRecordState same_ref newRecord s)))
     = (if page (meta newRecord) <? 1 then 1 else page (meta newRecord))
     ∧ 1 ≤ page (meta (st_record (_setRecordState same_ref newRecord s))))
  ∧ (∀ same_ref processRequest env sys,
       reachable same_ref processRequest env sys →
       1 ≤ page (meta (st_record (app sys)))).
Proof.
  split.
  - intros same_ref newRecord s. split.
    + by rewrite _setRecordState_record.
    + apply _setRecordState_page_ge_1.
  - intros same_ref processRequest env sys Hr.
    by destruct (reachable_ok same_ref processRequest env sys Hr) as [[Hp _] _].
Qed.

Lemma C2_witness :
  1 ≤ page (meta (st_record (app Examples.mounted))).
Proof.
  exact (proj2 C2_page_never_below_one no_alias Examples.promise Examples.env0
               Examples.mounted mounted_reachable).
Defined.

(** ** One request per action *)

(** C7: a user action has at most one request outstanding at any time.
    Every handler dispatches at most one request when it is invoked; a
    callback run for a settled request dispatches at most one follow-up
    (the refresh after a reprocess), and it runs only once its own request
    has left the requests in flight; so in every state the component
    reaches, at most one request in flight goes back to a given action.
    An event of the toolbar calls at most one handler. *)
Theorem C7_one_outstanding_request_per_action :
  (∀ processRequest a s,
     (List.length (snd (perform processRequest a s)) ≤ 1)%nat)
  ∧ (∀ same_ref processRequest cb o s,
       (List.length (snd (settle same_ref processRequest cb o s)) ≤ 1)%nat)
  ∧ (∀ same_ref processRequest i o sys sys',
       settle_at same_ref processRequest i o sys = Some sys' →
       ∃ p, pending sys !! i = Some p
            ∧ pending sys' =
                (delete i (pending sys)
                 ++ in_flight (origin p)
                      (snd (settle same_ref processRequest (callbacks p) o (app sys))))%list)
  ∧ (∀ same_ref processRequest env sys,
       reachable same_ref processRequest env sys →
       ∀ a, (List.length (outstanding a sys) ≤ 1)%nat)
  ∧ (∀ userIsAdmin b record value st,
       (List.length (snd (Nav.click userIsAdmin b record st)) ≤ 1)%nat
       ∧ (List.length (snd (Nav.handleChange record value st)) ≤ 1)%nat).
Proof.
  split; [|split; [|split; [|split]]]; cycle 4.
  { intros u b record value st. split.
    - unfold Nav.click. destruct (negb (Nav.rendered b st)); [simpl; lia|].
      destruct b; simpl; destruct (truthy u); simpl; lia.
    - simpl. destruct (negb (Nav.sar st)); simpl; lia. }
  - intros. apply perform_dispatch_le_1.
  - intros. apply settle_dispatch_le_1.
  - intros same_ref processRequest i o sys sys' Hs. unfold settle_at in Hs.
    destruct (pending sys !! i) as [p|]; [|discriminate].
    exists p. split; [reflexivity|].
    destruct (settle same_ref processRequest (callbacks p) o (app sys)).
    by inversion Hs.
  - intros same_ref processRequest env sys Hr a.
    destruct (reachable_ok same_ref processRequest env sys Hr) as [_ [Hnd _]].
    by apply NoDup_origin_filter.
Qed.

Lemma C7_witness :
  (List.length (outstanding 0 Examples.mounted) ≤ 1)%nat.
Proof.
  exact (proj1 (proj2 (proj2 (proj2 C7_one_outstanding_request_per_action)))
               no_alias Examples.promise Examples.env0 Examples.mounted
               mounted_reachable 0%nat).
Defined.

(** the request of the mount is in flight in the example *)
Lemma mounted_outstanding : List.length (outstanding 0 Examples.mounted) = 1%nat.
Proof. vm_compute. reflexivity. Qed.

(** ** The admin flag *)

Lemma getRecords_then_unfold same_ref record n d s :
  getRecords_then same_ref record n (Some d) s
  = let s1 :=
      if n
      then setMessage (VStr "Records successfully retrieved!") (VStr ALERT_SUCCESS) s
      else s in
    _setRecordState same_ref
      {| meta := {| page := page (meta record);
                    mfields := assign (clone_obj (mfields (meta (st_record s))))
                                      (mfields (meta record)) |};
         data :=
           match r_results d with
           | Some l =>
               {| results := l;
                  dfields := assign (clone_obj (dfields (data (st_record s))))
                                    (r_fields d) |}
           | None =>
               {| results := [];
                  dfields := <["user_is_admin" := get (r_fields d) "user_is_admin"]>
                               (clone_obj (dfields (data (st_record s)))) |}
           end |} s1.
Proof. unfold getRecords_then. destruct n; reflexivity. Qed.

(** the [adminStatus] of the merged record, read off the response and the
    previous data *)
Lemma adminStatus_merged (previous : gmap string value) d :
  default_param (VBool false)
    (adminStatus
       match r_results d with
       | Some l =>
           {| results := l; dfields := assign (clone_obj previous) (r_fields d) |}
       | None =>
           {| results := [];
              dfields := <["user_is_admin" := get (r_fields d) "user_is_admin"]>
                           (clone_obj previous) |}
       end)
  = admin_after_response previous d.
Proof.
  unfold admin_after_response, adminStatus, hasOwnProperty, get.
  destruct (r_results d) as [l|]; simpl.
  - rewrite lookup_assign.
    destruct l as [|r0 l]; [|destruct (r0 !! "user_is_admin"); [reflexivity|]];
      destruct (r_fields d !! "user_is_admin"); try reflexivity;
      destruct (clone_obj previous !! "user_is_admin"); reflexivity.
  - rewrite lookup_insert_eq.
    destruct (r_fields d !! "user_is_admin"); reflexivity.
Qed.

Lemma getRecords_then_admin same_ref record n d s :
  sound_ref same_ref →
  userIsAdmin (st_authMeta s) ≠ VUndefined →
  userIsAdmin (st_authMeta (getRecords_then same_ref record n (Some d) s))
  = admin_after_response (dfields (data (st_record s))) d.
Proof.
  intros Href Hflag. rewrite getRecords_then_unfold. cbv zeta.
  rewrite _setRecordState_admin; [| exact Href | by destruct n].
  apply adminStatus_merged.
Qed.

(** in every state the component reaches, the flag after a GET-photos
    response is the admin status of the merged record *)
Lemma reachable_admin_flag same_ref processRequest env sys record n d :
  sound_ref same_ref →
  reachable same_ref processRequest env sys →
  userIsAdmin (st_authMeta (getRecords_then same_ref record n (Some d) (app sys)))
  = admin_after_response (dfields (data (st_record (app sys)))) d.
Proof.
  intros Href Hr. apply getRecords_then_admin; [exact Href|].
  by destruct (reachable_ok same_ref processRequest env sys Hr) as [[_ Hd] _].
Qed.

(** The merged record and the response assert the same value unless the
    response carries [results], asserts nothing, and the previous data has
    a top-level [user_is_admin]. *)
Lemma admin_after_response_asserted (previous : gmap string value) d :
  r_results d = None
  ∨ is_Some (r_fields d !! "user_is_admin")
  ∨ (∃ r0 l, r_results d = Some (r0 :: l) ∧ is_Some (r0 !! "user_is_admin"))
  ∨ clone_obj previous !! "user_is_admin" = None →
  admin_after_response previous d
  = default_param (VBool false) (asserted_by_response d).
Proof.
  unfold admin_after_response, asserted_by_response.
  intros [H | [[v H] | [(r0 & l & H & [v Hv]) | H]]].
  - rewrite H. by destruct (r_fields d !! "user_is_admin").
  - by rewrite H.
  - by rewrite H, Hv.
  - rewrite H. destruct (r_results d) as [[|r0 l]|]; try reflexivity.
Qed.



Lemma reachable_settled i o sys :
  reachable no_alias Examples.promise Examples.env0 sys →
  reachable no_alias Examples.promise Examples.env0 (Examples.settled i o sys).
Proof.
  intros Hr. unfold Examples.settled.
  destruct (settle_at no_alias Examples.promise i o sys) as [sys'|] eqn:E;
    simpl; [|exact Hr].
  eapply reachable_step; [exact Hr | by eapply step_settle].
Qed.

(** the states of the counterexample are states the component reaches: it
    has mounted, its first request was answered without results by an
    admin's server, which the flag mirrors, and a second fetch was
    answered by [one_photo] *)
Lemma after_first_reachable :
  reachable no_alias Examples.promise Examples.env0 Examples.after_first
  ∧ userIsAdmin (st_authMeta Examples.state_after_first)
    = asserted_by_response Examples.admin_no_results.
Proof.
  split; [apply reachable_settled, mounted_reachable|].
  vm_compute. reflexivity.
Qed.

Lemma after_second_reachable :
  reachable no_alias Examples.promise Examples.env0 Examples.after_second
  ∧ app Examples.after_second = Examples.state_after_second.
Proof.
  split.
  - apply reachable_settled. eapply reachable_step; [|apply step_act].
    apply after_first_reachable.
  - vm_compute. reflexivity.
Qed.


Lemma stale_admin_values :
  userIsAdmin (st_authMeta Examples.state_after_second) = VBool true
  ∧ asserted_by_response Examples.one_photo = VBool false.
Proof. vm_compute. split; reflexivity. Qed.

(** ** Merging a response into the record *)

Lemma update_item_lookup same_ref (body r : gmap string value) k :
  update_item same_ref body r !! k =
  if strict_eq same_ref (get r "id") (get body "id")
  then match body !! k with
       | Some v => Some v
       | None => r !! k
       end
  else r !! k.
Proof.
  unfold update_item. destruct (strict_eq _ _ _); [apply lookup_assign | reflexivity].
Qed.

Lemma update_then_record same_ref n d s :
  st_record (update_then same_ref n (Some d) s)
  = {| meta := {| page := if page (meta (st_record s)) <? 1 then 1
                          else page (meta (st_record s));
                  mfields := clone_obj (mfields (meta (st_record s))) |};
       data := {| results := map (update_item same_ref (data_obj d))
                                 (map clone_obj (results (data (st_record s))));
                  dfields := clone_obj (dfields (data (st_record s))) |} |}.
Proof. unfold update_then. destruct n; reflexivity. Qed.

(** C4, as amended: a successful response is merged into the record, it
    does not replace it.  After the success path of [getRecordsHandler] the
    stored [results] are those of the response (none when it has no
    [results]); every other field of the response is stored with the
    response's value; a field of the previous data that the response lacks
    is kept as its JSON clone: it is still there with its value when it
    holds a JSON value, and it is gone when it holds [undefined] (only
    [user_is_admin] is taken from a response without [results], over the
    cloned previous fields).  After the success path of [handleUpdate] the
    stored items are the JSON clones of the previous ones, in order, where
    an item with the [id] of the response body has the fields of the body
    written over its own and keeps the fields the body lacks; the other
    fields of the data are the clones of what they were. *)
Theorem C4_response_merged_into_record :
  (∀ same_ref record notifyResponse d s k,
     let previous := clone_obj (dfields (data (st_record s))) in
     let stored :=
       data (st_record (getRecords_then same_ref record notifyResponse (Some d) s)) in
     results stored = match r_results d with
                      | Some l => l
                      | None => []
                      end
     ∧ dfields stored !! k =
         match r_results d with
         | Some _ =>
             match r_fields d !! k with
             | Some v => Some v
             | None => previous !! k
             end
         | None =>
             if decide (k = "user_is_admin")
             then Some (get (r_fields d) "user_is_admin")
             else previous !! k
         end)
  ∧ (∀ same_ref notifyResponse d s,
       let stored :=
         data (st_record (update_then same_ref notifyResponse (Some d) s)) in
       Forall2
         (λ r r' : gmap string value,
            if strict_eq same_ref (get r "id") (get (data_obj d) "id")
            then ∀ k, r' !! k = match data_obj d !! k with
                                | Some v => Some v
                                | None => r !! k
                                end
            else r' = r)
         (map clone_obj (results (data (st_record s))))
         (results stored)
       ∧ dfields stored = clone_obj (dfields (data (st_record s))))
  ∧ (∀ same_ref record notifyResponse d s l k v,
       r_results d = Some l →
       r_fields d !! k = None →
       dfields (data (st_record s)) !! k = Some v →
       json v →
       dfields (data (st_record
                  (getRecords_then same_ref record notifyResponse (Some d) s))) !! k
       = Some v)
  ∧ (∀ same_ref record notifyResponse d s l k,
       r_results d = Some l →
       r_fields d !! k = None →
       dfields (data (st_record s)) !! k = Some VUndefined →
       dfields (data (st_record
                  (getRecords_then same_ref record notifyResponse (Some d) s))) !! k
       = None).
Proof.
  split; [|split; [|split]]; cycle 2.
  { intros same_ref record n d s l k v Hl Hk Hv Hj.
    rewrite getRecords_then_unfold. cbv zeta.
    rewrite _setRecordState_record, Hl. simpl.
    rewrite lookup_assign, Hk. by apply clone_obj_lookup_json. }
  { intros same_ref record n d s l k Hl Hk Hv.
    rewrite getRecords_then_unfold. cbv zeta.
    rewrite _setRecordState_record, Hl. simpl.
    rewrite lookup_assign, Hk. unfold clone_obj. by rewrite lookup_omap, Hv. }
  - intros same_ref record n d s k previous stored. subst previous stored.
    rewrite getRecords_then_unfold. cbv zeta.
    rewrite _setRecordState_record. simpl.
    destruct (r_results d) as [l|]; simpl.
    + split; [reflexivity | apply lookup_assign].
    + split; [reflexivity|].
      destruct (decide (k = "user_is_admin")) as [->|Hne].
      * by rewrite lookup_insert_eq.
      * by rewrite lookup_insert_ne.
  - intros same_ref n d s stored. subst stored.
    rewrite update_then_record. simpl. split; [|reflexivity].
    apply Forall2_fmap_r, Forall_Forall2_diag, Forall_forall.
    intros r _. unfold compose, update_item.
    destruct (strict_eq same_ref (get r "id") (get (data_obj d) "id"));
      [intros k; apply lookup_assign | reflexivity].
Qed.

Lemma C4_witness :
  dfields (data (st_record Examples.state_after_second)) !! "user_is_admin"
  = Some (VBool true).
Proof.
  apply (proj1 (proj2 (proj2 C4_response_merged_into_record)) no_alias
               (st_record Examples.state_after_first) true Examples.one_photo
               Examples.state_after_first [ {[ "id" := VNum 7 ]} ]);
    [reflexivity | vm_compute; reflexivity | vm_compute; reflexivity | constructor].
Defined.

(** a field holding [undefined] is there to be dropped: a response with
    neither [results] nor [user_is_admin] leaves [user_is_admin: undefined]
    in the record data, and the next response with [results] removes it *)
Lemma undefined_admin_field_dropped :
  let empty := {| r_results := None; r_fields := ∅ |} in
  let s1 :=
    getRecords_then no_alias (st_record Examples.state_after_first) true
                    (Some empty) Examples.state_after_first in
  let s2 :=
    getRecords_then no_alias (st_record s1) true (Some Examples.one_photo) s1 in
  dfields (data (st_record s1)) !! "user_is_admin" = Some VUndefined
  ∧ dfields (data (st_record s2)) !! "user_is_admin" = None.
Proof. vm_compute. split; reflexivity. Qed.

(** C4, as stated, fails on both paths.  The record data of
    [state_after_first] holds [user_is_admin]; the response [one_photo] has
    no such field, and the field is still in the stored data.  The item of
    [showing_photo] has a [file_name]; the body [patched_photo] has none,
    and the stored item still has it. *)
Lemma C4_counterexample :
  ¬ data_replaced_wholesale no_alias (st_record Examples.state_after_first) true
      Examples.one_photo Examples.state_after_first
  ∧ ¬ item_replaced_wholesale no_alias true Examples.patched_photo
        Examples.showing_photo.
Proof.
  split.
  - unfold data_replaced_wholesale. intros H.
    apply (f_equal (λ m : gmap string value, m !! "user_is_admin")) in H.
    vm_compute in H. discriminate.
  - unfold item_replaced_wholesale. intros H.
    specialize (H (<["tags" := VArr [VStr "sea"]]>
                     (<["id" := VNum 7]> {[ "file_name" := VStr "a.jpg" ]}))).
    assert (<["tags" := VArr [VStr "sea"]]>
              (<["id" := VNum 7]> {[ "file_name" := VStr "a.jpg" ]})
            ∈ results (data (st_record
                (update_then no_alias true (Some Examples.patched_photo)
                             Examples.showing_photo)))) as Hin.
    { vm_compute. apply list_elem_of_here. }
    specialize (H Hin).
    assert (get (<["tags" := VArr [VStr "sea"]]>
                   (<["id" := VNum 7]> {[ "file_name" := VStr "a.jpg" ]})) "id"
            = get (data_obj Examples.patched_photo) "id") as Hid.
    { vm_compute. reflexivity. }
    specialize (H Hid).
    apply (f_equal (λ m : gmap string value, m !! "file_name")) in H.
    vm_compute in H. discriminate.
Qed.

(** ** Failures *)

(** C3, as amended: for every request handler a failure of the request runs
    the [catch] branch of that handler, which dispatches nothing and sets a
    banner of class [alert alert-danger] whose text starts with
    [An API error has occurred], whatever the error.  The text is exactly
    that for the record fetch, reprocess, tag suggestions,
    search-and-replace, prune tags and bulk remove tags; process photos and
    update append a sentence of their own. *)
Theorem C3_failure_banner same_ref processRequest cb e s :
  let after := settle same_ref processRequest cb (Rejected e) s in
  snd after = []
  ∧ fst after = catch_callback same_ref cb e s
  ∧ messageClass (st_message (fst after)) = VStr "alert alert-danger"
  ∧ message (st_message (fst after))
    = VStr ("An API error has occurred" ++
            match cb with
            | CbProcessPhotos _ _ _ _ => ". Photo processing initiation failed!"
            | CbUpdate _ => ". Updating tags failed!"
            | _ => ""
            end).
Proof.
  cbv zeta. unfold settle. cbn [fst snd].
  split; [reflexivity|]. split; [reflexivity|].
  destruct cb; unfold catch_callback; try (split; reflexivity).
  unfold getRecords_catch.
  rewrite (proj1 (_setRecordState_other same_ref record
                    (setMessage (VStr API_ERROR) (VStr ALERT_DANGER) s))).
  split; reflexivity.
Qed.

(** C3, as stated, fails: the [catch] branches of [handleProcessPhotos] and
    of [handleUpdate] set a longer text. *)
Lemma C3_counterexample :
  ¬ failure_gives_generic_banner no_alias Examples.promise
      (CbProcessPhotos false true false true) VNull Examples.state_after_first
  ∧ ¬ failure_gives_generic_banner no_alias Examples.promise
        (CbUpdate true) VNull Examples.state_after_first.
Proof.
  unfold failure_gives_generic_banner.
  split; intros H; vm_compute in H; discriminate.
Qed.

(** the other six [catch] branches do set the generic banner *)
Lemma generic_banner_six same_ref processRequest cb e s :
  catch_suffix cb = "" →
  failure_gives_generic_banner same_ref processRequest cb e s.
Proof.
  unfold failure_gives_generic_banner. intros H.
  unfold settle. cbn [fst].
  destruct cb; try discriminate H; unfold catch_callback; try reflexivity.
  unfold getRecords_catch.
  by rewrite (proj1 (_setRecordState_other same_ref record
                       (setMessage (VStr API_ERROR) (VStr ALERT_DANGER) s))).
Qed.

(** ** Who can start a batch job *)

(** C5, as amended: the batch jobs are kept from non-administrators by the
    toolbar, not by the handlers.  While [authMeta.userIsAdmin] is falsy the
    [onClick] of every batch-job button of [DataTableNav] (scan, retag,
    clean, prune tags, bulk remove tags, the search-and-replace switch and
    the replace button) is [null]: a click calls no handler and changes
    nothing.  The handlers of [App] test [authMeta.authenticated] alone:
    they dispatch nothing when it is false, and what they dispatch does not
    depend on [userIsAdmin]. *)
Theorem C5_admin_gate_is_in_the_toolbar :
  (∀ userIsAdmin b record st,
     truthy userIsAdmin = false → Nav.batch_job b = true →
     Nav.click userIsAdmin b record st = (st, record, []))
  ∧ (∀ processRequest s retag scan clean_db searchTerm replaceTerm n,
       authenticated (st_authMeta s) = false →
       snd (handleProcessPhotos processRequest retag scan clean_db n s) = []
       ∧ snd (handlePruneTags processRequest n s) = []
       ∧ snd (handleBulkRemoveTags processRequest n s) = []
       ∧ snd (searchAndReplaceHandler processRequest searchTerm replaceTerm n s) = [])
  ∧ (∀ processRequest s a retag scan clean_db searchTerm replaceTerm n,
       let s' :=
         setState_authMeta
           {| authenticated := authenticated (st_authMeta s); userIsAdmin := a |} s in
       snd (handleProcessPhotos processRequest retag scan clean_db n s')
       = snd (handleProcessPhotos processRequest retag scan clean_db n s)
       ∧ snd (handlePruneTags processRequest n s')
         = snd (handlePruneTags processRequest n s)
       ∧ snd (handleBulkRemoveTags processRequest n s')
         = snd (handleBulkRemoveTags processRequest n s)
       ∧ snd (searchAndReplaceHandler processRequest searchTerm replaceTerm n s')
         = snd (searchAndReplaceHandler processRequest searchTerm replaceTerm n s)).
Proof.
  split; [|split].
  - intros u b record st Hu Hb. unfold Nav.click.
    destruct (negb (Nav.rendered b st)); [reflexivity|].
    destruct b; try discriminate Hb; rewrite Hu; reflexivity.
  - intros processRequest s retag scan clean_db searchTerm replaceTerm n Ha.
    unfold handleProcessPhotos, handlePruneTags, handleBulkRemoveTags,
      searchAndReplaceHandler.
    rewrite Ha. simpl. done.
  - intros processRequest s a retag scan clean_db searchTerm replaceTerm n s'.
    subst s'.
    unfold handleProcessPhotos, handlePruneTags, handleBulkRemoveTags,
      searchAndReplaceHandler. simpl.
    repeat split; by case_ifs.
Qed.

Lemma C5_witness :
  Nav.click (VBool false) Nav.BtnPruneTags
            (st_record Examples.state_after_first) Examples.replacing
  = (Examples.replacing, st_record Examples.state_after_first, []).
Proof.
  apply (proj1 C5_admin_gate_is_in_the_toolbar); reflexivity.
Defined.

(** C5, as stated, fails: the component has mounted with a session token,
    the user is authenticated and is not an admin, and [handlePruneTags]
    and [searchAndReplaceHandler] dispatch their requests. *)
Lemma C5_counterexample :
  ¬ admin_only_dispatch (handlePruneTags Examples.promise true)
      (app Examples.mounted)
  ∧ ¬ admin_only_dispatch
        (searchAndReplaceHandler Examples.promise "cat" "dog" true)
        (app Examples.mounted).
Proof.
  unfold admin_only_dispatch.
  split; intros H; assert (Hf : userIsAdmin (st_authMeta (app Examples.mounted)) = VBool false)
    by (vm_compute; reflexivity); specialize (H Hf); vm_compute in H; discriminate.
Qed.

(** ** The terms of the toolbar *)

(** the class of the regular expression is the set of characters the
    specification lists *)
Lemma in_class_allowed c :
  Nav.in_class c = bool_decide (c ∈ Nav.allowed_chars).
Proof.
  destruct c as [[] [] [] [] [] [] [] []]; vm_compute; reflexivity.
Qed.

Lemma regex_test_Forall value :
  Nav.regex_test value = true
  ↔ Forall (λ c, c ∈ Nav.allowed_chars) (list_ascii_of_string value).
Proof.
  induction value as [|c rest IH]; simpl.
  - split; [constructor | reflexivity].
  - rewrite andb_true_iff, IH, in_class_allowed, bool_decide_eq_true.
    split.
    + intros [Hc Hr]. by constructor.
    + intros H. inversion H; subst. by split.
Qed.

(** the search field: a valid input replaces the term, an invalid one
    leaves it as it was *)
Lemma handleChange_term record value st :
  Nav.term (fst (Nav.handleChange record value st))
  = (if Nav.regex_test value then value else Nav.term st)
  ∧ Nav.replaceTerm (fst (Nav.handleChange record value st)) = Nav.replaceTerm st.
Proof. split; reflexivity. Qed.

(** the replace field: an invalid input stores the search term *)
Lemma handleReplaceChange_replaceTerm value st :
  Nav.replaceTerm (Nav.handleReplaceChange value st)
  = (if Nav.regex_test value then value else Nav.term st)
  ∧ Nav.term (Nav.handleReplaceChange value st) = Nav.term st.
Proof. split; reflexivity. Qed.

(** C8 holds for the search field and fails for the replace field: with
    the search term [cat] and the replace term [dog] stored, typing [#]
    after [dog] in the replace field is rejected by the regular expression,
    and the replace term becomes [cat], the search term, where it should
    have stayed [dog]. *)
Theorem C8_replace_field_invalid_input :
  Nav.regex_test "dog#" = false
  ∧ Nav.replaceTerm Examples.replacing = "dog"
  ∧ Nav.replaceTerm (Nav.handleReplaceChange "dog#" Examples.replacing) = "cat"
  ∧ Nav.term (fst (Nav.handleChange (st_record (app Examples.mounted)) "cat#"
                                    Examples.replacing)) = "cat".
Proof. repeat split. Qed.

(** ** Tag suggestions *)

(** C9: every invocation of [tagSuggestionsHandler] leaves [tagSuggestions]
    reset to [{ itemID: null, suggestions: [] }] when it returns, also when
    it has dispatched a request (which it does exactly when the user is
    authenticated, the term is truthy and [processRequest] gave a promise),
    and that request is then still in flight with every earlier one;
    when the request later succeeds, [tagSuggestions] becomes the given
    [itemID] with the [tag] of every element of the response's [results],
    in order; when it is rejected, resolves to nothing, or its response has
    no [results], [tagSuggestions] stays as it is. *)
Theorem C9_tag_suggestions same_ref processRequest term itemID n s :
  st_tagSuggestions (fst (tagSuggestionsHandler processRequest term itemID n s))
  = {| itemID := VNull; suggestions := [] |}
  ∧ (∀ sys,
       st_tagSuggestions
         (app (act processRequest (GetTagSuggestions term itemID n) sys))
       = {| itemID := VNull; suggestions := [] |}
       ∧ pending (act processRequest (GetTagSuggestions term itemID n) sys)
         = (pending sys
            ++ in_flight (actions sys)
                 (snd (tagSuggestionsHandler processRequest term itemID n
                                             (app sys))))%list)
  ∧ snd (tagSuggestionsHandler processRequest term itemID n s)
    = (if authenticated (st_authMeta s) && truthy term
          && processRequest (ReqGetTags term)
       then [(ReqGetTags term, CbTagSuggestions itemID n)]
       else [])
  ∧ (∀ l fields s',
       st_tagSuggestions
         (fst (settle same_ref processRequest (CbTagSuggestions itemID n)
                 (Resolved (Some {| r_results := Some l; r_fields := fields |})) s'))
       = {| itemID := itemID; suggestions := map (λ result, get result "tag") l |})
  ∧ (∀ e s',
       st_tagSuggestions
         (fst (settle same_ref processRequest (CbTagSuggestions itemID n)
                 (Rejected e) s'))
       = st_tagSuggestions s')
  ∧ (∀ s',
       st_tagSuggestions
         (fst (settle same_ref processRequest (CbTagSuggestions itemID n)
                 (Resolved None) s'))
       = st_tagSuggestions s')
  ∧ (∀ fields s',
       st_tagSuggestions
         (fst (settle same_ref processRequest (CbTagSuggestions itemID n)
                 (Resolved (Some {| r_results := None; r_fields := fields |})) s'))
       = st_tagSuggestions s').
Proof.
  split; [reflexivity|]. split.
  { intros sys. split; reflexivity. }
  split.
  { unfold tagSuggestionsHandler. simpl.
    destruct (authenticated (st_authMeta s) && truthy term); simpl; [|reflexivity].
    by destruct (processRequest (ReqGetTags term)). }
  split; [intros; simpl; by destruct n|].
  split; [reflexivity|]. split; [reflexivity|].
  intros; simpl; by destruct n.
Qed.

(** ** Refresh *)

(** C10: the refresh button always asks for the first page.  Whatever the
    record of the props, [getRecords] sets its [meta.page] to 1 and leaves
    every other field of [meta] (limit, ordering, search term, ...) and the
    data as they were, and it is this record that it hands to
    [handleGetRecords]; the button is not gated by the admin flag.  In
    [App] the refresh stores page 1 in the record state before
    [getRecordsHandler] runs, and the request is for that record. *)
Theorem C10_refresh_requests_first_page :
  (∀ record,
     page (meta (fst (Nav.getRecords record))) = 1
     ∧ mfields (meta (fst (Nav.getRecords record))) = mfields (meta record)
     ∧ data (fst (Nav.getRecords record)) = data record
     ∧ snd (Nav.getRecords record) = [Nav.handleGetRecords (fst (Nav.getRecords record))])
  ∧ (∀ userIsAdmin record st,
       Nav.click userIsAdmin Nav.BtnRefresh record st
       = (st, fst (Nav.getRecords record), snd (Nav.getRecords record)))
  ∧ (∀ processRequest s,
       st_record (fst (perform processRequest Refresh s))
       = fst (Nav.getRecords (st_record s))
       ∧ snd (perform processRequest Refresh s)
         = if authenticated (st_authMeta s)
              && processRequest (ReqGetPhotos VNull (fst (Nav.getRecords (st_record s))))
           then [(ReqGetPhotos VNull (fst (Nav.getRecords (st_record s))),
                  CbGetRecords (fst (Nav.getRecords (st_record s))) true)]
           else []).
Proof.
  split; [|split].
  - intros record. repeat split.
  - reflexivity.
  - intros processRequest s. simpl. unfold getRecordsHandler. simpl.
    destruct (authenticated (st_authMeta s)); simpl; [|done].
    by destruct (processRequest _).
Qed.

(** * Further properties of the component *)

Import Reading.

(** ** Authentication *)

Section Authentication.

Variable same_ref : value → value → bool.
Variable processRequest : Request → bool.

Lemma setMessage_authMeta m c s : st_authMeta (setMessage m c s) = st_authMeta s.
Proof. reflexivity. Qed.

Lemma perform_authenticated a s :
  authenticated (st_authMeta (fst (perform processRequest a s)))
  = match token_of a with
    | Some t => truthy t
    | None => authenticated (st_authMeta s)
    end.
Proof.
  destruct a; simpl; unfold componentDidMount;
    rewrite ?setAuthentication_state, ?getRecordsHandler_state,
      ?searchAndReplaceHandler_state, ?handlePruneTags_state,
      ?handleBulkRemoveTags_state, ?handleProcessPhotos_state,
      ?handleUpdate_state; reflexivity.
Qed.

Lemma reprocessRecord_then_state n response s :
  fst (reprocessRecord_then processRequest n response s)
  = match response with
    | Some _ =>
        if n
        then setMessage (VStr "Reprocessing task initiated!") (VStr ALERT_SUCCESS) s
        else s
    | None => s
    end.
Proof.
  unfold reprocessRecord_then. destruct response; [|reflexivity].
  apply getRecordsHandler_state.
Qed.

Lemma settle_authenticated cb o s :
  authenticated (st_authMeta (fst (settle same_ref processRequest cb o s)))
  = authenticated (st_authMeta s).
Proof.
  destruct o as [response|e].
  - destruct cb; simpl.
    + destruct response as [d|]; [|reflexivity].
      rewrite getRecords_then_unfold. cbv zeta.
      rewrite _setRecordState_authenticated. by destruct notifyResponse.
    + pose proof (reprocessRecord_then_state notifyResponse response s) as H.
      destruct (reprocessRecord_then processRequest notifyResponse response s)
        as [s' dd]. simpl in *. subst s'.
      destruct response; [by destruct notifyResponse | reflexivity].
    + unfold tagSuggestions_then. destruct response as [d|]; [|reflexivity].
      destruct (r_results d); by destruct notifyResponse.
    + unfold report_then. destruct response; [by destruct notifyResponse | reflexivity].
    + unfold report_then. destruct response; [by destruct notifyResponse | reflexivity].
    + unfold report_then. destruct response; [by destruct notifyResponse | reflexivity].
    + unfold report_then. destruct response; [by destruct notifyResponse | reflexivity].
    + destruct response as [d|]; [|reflexivity].
      change (authenticated (st_authMeta
                (update_then same_ref notifyResponse (Some d) s))
              = authenticated (st_authMeta s)).
      unfold update_then. cbv zeta.
      destruct notifyResponse;
        by rewrite ?setMessage_authMeta, _setRecordState_authenticated.
  - destruct cb; unfold settle, catch_callback, report_catch, getRecords_catch;
      cbn [fst]; try reflexivity.
    by rewrite _setRecordState_authenticated.
Qed.

Lemma perform_unauthenticated a s :
  authenticated (st_authMeta s) = false → without_token a = true →
  snd (perform processRequest a s) = [].
Proof.
  intros Ha Ht.
  destruct a; simpl in *; unfold without_token in Ht; simpl in Ht;
    unfold componentDidMount, setAuthentication, getRecordsHandler,
      reprocessRecordHandler, tagSuggestionsHandler, searchAndReplaceHandler,
      handlePruneTags, handleBulkRemoveTags, handleProcessPhotos, handleUpdate;
    simpl; rewrite ?Ha; simpl; try reflexivity.
  - apply negb_true_iff in Ht. by rewrite Ht.
  - apply negb_true_iff in Ht. by rewrite Ht.
  - by destruct record.
Qed.

Lemma settle_unauthenticated cb o s :
  authenticated (st_authMeta s) = false →
  snd (settle same_ref processRequest cb o s) = [].
Proof.
  intros Ha. destruct o as [[d|]|e]; destruct cb; simpl; try reflexivity.
  - unfold getRecordsHandler.
    assert (authenticated (st_authMeta
              (if notifyResponse
               then setMessage (VStr "Reprocessing task initiated!")
                               (VStr ALERT_SUCCESS) s
               else s)) = false) as ->; [by destruct notifyResponse | reflexivity].
  - unfold tagSuggestions_then. by destruct (r_results d).
Qed.

End Authentication.

(** X1.  Nothing is sent for a user who is not authenticated: with
    [authMeta.authenticated] false, no handler and no callback dispatches a
    request, whatever [processRequest] would answer, and as long as no
    action brings a truthy session token the component stays
    unauthenticated with no request in flight. *)
Theorem no_request_without_authentication :
  (∀ processRequest a s,
     authenticated (st_authMeta s) = false → without_token a = true →
     snd (perform processRequest a s) = [])
  ∧ (∀ same_ref processRequest cb o s,
       authenticated (st_authMeta s) = false →
       snd (settle same_ref processRequest cb o s) = [])
  ∧ (∀ processRequest env l,
       forallb without_token l = true →
       pending (acts processRequest l (start env)) = []
       ∧ authenticated (st_authMeta (app (acts processRequest l (start env))))
         = false).
Proof.
  split; [|split].
  - intros. by apply perform_unauthenticated.
  - intros. by apply settle_unauthenticated.
  - intros processRequest env l Hl. unfold acts.
    assert (pending (start env) = []
            ∧ authenticated (st_authMeta (app (start env))) = false) as H0
      by (split; reflexivity).
    revert Hl H0. generalize (start env) as sys.
    induction l as [|a l IH]; intros sys Hl H0; [exact H0|].
    simpl in Hl. apply andb_true_iff in Hl as [Ha Hl]. simpl.
    apply IH; [exact Hl|]. destruct H0 as [Hp Hauth].
    unfold act.
    pose proof (perform_unauthenticated processRequest a (app sys) Hauth Ha) as Hd.
    pose proof (perform_authenticated processRequest a (app sys)) as Hk.
    destruct (perform processRequest a (app sys)) as [s d]. simpl in *.
    subst d. rewrite Hp. split; [reflexivity|].
    rewrite Hk. unfold without_token in Ha.
    destruct (token_of a); [by apply negb_true_iff in Ha | exact Hauth].
Qed.

Lemma X1_witness :
  pending (acts Examples.promise
             [Mount (VStr "csrf") VNull; PruneTags true; Refresh;
              GetTagSuggestions (VStr "sea") (VNum 7) false]
             (start Examples.env0)) = [].
Proof.
  apply (proj2 (proj2 no_request_without_authentication)). reflexivity.
Defined.

(** X2.  Only [setAuthentication] (also at mount) writes
    [authMeta.authenticated], and it writes the truthiness of the session
    token; no other handler and no callback, on success or on failure,
    changes it: a failed request never logs the user out. *)
Theorem authenticated_written_by_setAuthentication_only :
  (∀ processRequest a s,
     authenticated (st_authMeta (fst (perform processRequest a s)))
     = match a with
       | Mount _ token | SetAuthentication token => truthy token
       | _ => authenticated (st_authMeta s)
       end)
  ∧ (∀ same_ref processRequest cb o s,
       authenticated (st_authMeta (fst (settle same_ref processRequest cb o s)))
       = authenticated (st_authMeta s)).
Proof.
  split.
  - intros processRequest a s. rewrite perform_authenticated. by destruct a.
  - intros. apply settle_authenticated.
Qed.

(** ** The state around [setAuthentication], [setAuthorized] and
    [_setRecordState] *)

Lemma State_eq (s s' : State) :
  st_record s = st_record s' → st_authMeta s = st_authMeta s' →
  st_greeting s = st_greeting s' → st_csrfToken s = st_csrfToken s' →
  st_message s = st_message s' → st_tagSuggestions s = st_tagSuggestions s' →
  s = s'.
Proof. destruct s, s'; simpl; intros; by subst. Qed.

Lemma AuthMeta_eq (a a' : AuthMeta) :
  authenticated a = authenticated a' → userIsAdmin a = userIsAdmin a' → a = a'.
Proof. destruct a, a'; simpl; intros; by subst. Qed.

Lemma clone_authMeta_json a : json (userIsAdmin a) → clone_authMeta a = a.
Proof.
  intros Hj. apply AuthMeta_eq; [reflexivity|]. simpl.
  unfold clone_prop. rewrite (jsonClone_json _ Hj).
  destruct (userIsAdmin a); reflexivity.
Qed.

(** X3.  [setAuthentication] sets [authenticated] to the truthiness of the
    session token and asks for the records of the current record state
    when the token is truthy; it leaves the record, the admin flag, the
    message and the tag suggestions as they are: a logout by removing the
    token does not clear what the component shows. *)
Theorem setAuthentication_keeps_the_view processRequest token s
    (Hflag : json (userIsAdmin (st_authMeta s))) :
  let s' := fst (setAuthentication processRequest token s) in
  st_authMeta s'
  = {| authenticated := truthy token;
       userIsAdmin := userIsAdmin (st_authMeta s) |}
  ∧ st_record s' = st_record s
  ∧ st_message s' = st_message s
  ∧ st_tagSuggestions s' = st_tagSuggestions s
  ∧ st_csrfToken s' = st_csrfToken s
  ∧ st_greeting s' = st_greeting s
  ∧ snd (setAuthentication processRequest token s)
    = if truthy token && processRequest (ReqGetPhotos VNull (st_record s))
      then [(ReqGetPhotos VNull (st_record s), CbGetRecords (st_record s) true)]
      else [].
Proof.
  cbv zeta. rewrite setAuthentication_state, (clone_authMeta_json _ Hflag).
  repeat (split; [reflexivity|]).
  unfold setAuthentication, getRecordsHandler. simpl.
  destruct (truthy token); simpl; [|reflexivity].
  by destruct (processRequest _).
Qed.

Lemma X3_witness :
  st_record (fst (setAuthentication Examples.promise VNull
                                    Examples.state_after_second))
  = st_record Examples.state_after_second.
Proof.
  refine (proj1 (proj2 (setAuthentication_keeps_the_view Examples.promise VNull
                          Examples.state_after_second _))).
  vm_compute. constructor.
Defined.

(** X4.  [setAuthorized] acts for the role [admin] only, which is also the
    default role: called with any other role it changes nothing; for the
    role [admin] it stores the given state, [false] when none is given, in
    [userIsAdmin] and touches nothing else. *)
Theorem setAuthorized_admin_role_only :
  (∀ same_ref role state s,
     role ≠ VUndefined → role ≠ VStr "admin" →
     setAuthorized same_ref role state s = s)
  ∧ (∀ same_ref role state s,
       let s' := setAuthorized same_ref role state s in
       authenticated (st_authMeta s') = authenticated (st_authMeta s)
       ∧ st_record s' = st_record s
       ∧ st_message s' = st_message s
       ∧ st_tagSuggestions s' = st_tagSuggestions s
       ∧ st_csrfToken s' = st_csrfToken s
       ∧ st_greeting s' = st_greeting s)
  ∧ (∀ same_ref state s,
       sound_ref same_ref →
       userIsAdmin (st_authMeta (setAuthorized same_ref VUndefined state s))
       = default_param (VBool false) state
       ∧ userIsAdmin (st_authMeta (setAuthorized same_ref (VStr "admin") state s))
         = default_param (VBool false) state).
Proof.
  split; [|split].
  - intros same_ref role state s Hu Ha. unfold setAuthorized.
    assert (strict_eq same_ref (default_param (VStr "admin") role) (VStr "admin")
            = false) as ->; [|reflexivity].
    destruct role; simpl; try reflexivity.
    + by destruct Hu.
    + apply String.eqb_neq. intros ->. by apply Ha.
  - intros same_ref role state s. cbv zeta. unfold setAuthorized.
    destruct (strict_eq _ _ _); [|done]. by destruct (negb _).
  - intros same_ref state s Hs. split; [|by apply setAuthorized_admin].
    by apply (setAuthorized_admin same_ref state s).
Qed.

Lemma X4_witness :
  setAuthorized no_alias (VStr "editor") (VBool true) Examples.state_after_first
  = Examples.state_after_first.
Proof.
  apply (proj1 setAuthorized_admin_role_only); discriminate.
Defined.

Lemma _setRecordState_authMeta_eq same_ref newRecord s :
  sound_ref same_ref →
  st_authMeta (_setRecordState same_ref newRecord s)
  = {| authenticated := authenticated (st_authMeta s);
       userIsAdmin :=
         if strict_eq same_ref (adminStatus (data newRecord))
                      (userIsAdmin (st_authMeta s))
         then userIsAdmin (st_authMeta s)
         else default_param (VBool false) (adminStatus (data newRecord)) |}.
Proof.
  intros Hs. apply AuthMeta_eq.
  - apply _setRecordState_authenticated.
  - rewrite _setRecordState_authMeta. simpl.
    destruct (strict_eq same_ref (adminStatus (data newRecord))
                        (userIsAdmin (st_authMeta s))); simpl; [reflexivity|].
    by apply setAuthorized_admin.
Qed.

Lemma _setRecordState_frame same_ref newRecord s :
  st_message (_setRecordState same_ref newRecord s) = st_message s
  ∧ st_tagSuggestions (_setRecordState same_ref newRecord s) = st_tagSuggestions s
  ∧ st_csrfToken (_setRecordState same_ref newRecord s) = st_csrfToken s
  ∧ st_greeting (_setRecordState same_ref newRecord s) = st_greeting s.
Proof. unfold _setRecordState, setAuthorized. by case_ifs. Qed.

(** X5.  [_setRecordState] is idempotent and writes the record and the
    admin flag only: storing the same record a second time changes
    nothing, and the message, the tag suggestions, the CSRF token, the
    greeting and [authenticated] are never touched. *)
Theorem setRecordState_idempotent same_ref newRecord s
    (Href : sound_ref same_ref) :
  _setRecordState same_ref newRecord (_setRecordState same_ref newRecord s)
  = _setRecordState same_ref newRecord s
  ∧ st_message (_setRecordState same_ref newRecord s) = st_message s
  ∧ st_tagSuggestions (_setRecordState same_ref newRecord s) = st_tagSuggestions s
  ∧ st_csrfToken (_setRecordState same_ref newRecord s) = st_csrfToken s
  ∧ st_greeting (_setRecordState same_ref newRecord s) = st_greeting s
  ∧ authenticated (st_authMeta (_setRecordState same_ref newRecord s))
    = authenticated (st_authMeta s).
Proof.
  split; [|split; [|split; [|split; [|split]]]];
    try apply _setRecordState_frame; [|apply _setRecordState_authenticated].
  set (s1 := _setRecordState same_ref newRecord s).
  destruct (_setRecordState_frame same_ref newRecord s1) as (Hm & Ht & Hc & Hg).
  apply State_eq; try done.
  rewrite (_setRecordState_authMeta_eq same_ref newRecord s1 Href).
  unfold s1. rewrite (_setRecordState_authMeta_eq same_ref newRecord s Href).
  simpl. apply AuthMeta_eq; [reflexivity|]. simpl.
  destruct (strict_eq same_ref (adminStatus (data newRecord))
                      (userIsAdmin (st_authMeta s))) eqn:E1.
  - by case_ifs.
  - destruct (strict_eq same_ref (adminStatus (data newRecord))
                (default_param (VBool false) (adminStatus (data newRecord)))) eqn:E2;
      reflexivity.
Qed.

Lemma X5_witness :
  _setRecordState no_alias (st_record Examples.state_after_first)
    (_setRecordState no_alias (st_record Examples.state_after_first)
                     (app Examples.mounted))
  = _setRecordState no_alias (st_record Examples.state_after_first)
                    (app Examples.mounted).
Proof.
  exact (proj1 (setRecordState_idempotent no_alias
                  (st_record Examples.state_after_first) (app Examples.mounted)
                  no_alias_sound)).
Defined.

(** ** Responses *)

(** X6.  What a settled request can leave behind.  A request that
    resolves with a falsy response leaves the whole state as it is and
    dispatches nothing, for every handler.  A request that fails changes
    the banner and nothing else, and dispatches nothing; only the failed
    fetch also writes the record and the admin flag.  No failure touches
    the tag suggestions, the CSRF token, the greeting or
    [authenticated]. *)
Theorem settled_request_frame same_ref processRequest cb s :
  settle same_ref processRequest cb (Resolved None) s = (s, [])
  ∧ (∀ e,
       let after := fst (settle same_ref processRequest cb (Rejected e) s) in
       snd (settle same_ref processRequest cb (Rejected e) s) = []
       ∧ st_tagSuggestions after = st_tagSuggestions s
       ∧ st_csrfToken after = st_csrfToken s
       ∧ st_greeting after = st_greeting s
       ∧ authenticated (st_authMeta after) = authenticated (st_authMeta s)
       ∧ match cb with
         | CbGetRecords _ _ => True
         | _ => st_record after = st_record s ∧ st_authMeta after = st_authMeta s
         end).
Proof.
  split; [destruct cb; reflexivity|].
  intros e. cbv zeta. unfold settle, catch_callback. cbn [fst snd].
  split; [reflexivity|].
  destruct cb; unfold report_catch; try (repeat split; reflexivity).
  unfold getRecords_catch.
  destruct (_setRecordState_frame same_ref record
              (setMessage (VStr API_ERROR) (VStr ALERT_DANGER) s))
    as (_ & -> & -> & ->).
  rewrite _setRecordState_authenticated. repeat split.
Qed.

(** X7.  After a request has resolved with a response, the banner is the
    success banner of the handler when [notifyResponse] was set and is left
    alone when it was not; the one exception is a tag-suggestions response
    without [results], on which the [then] callback throws, so that the
    [catch] branch puts up the error banner although the request
    succeeded. *)
Theorem banner_after_response same_ref processRequest cb d s :
  let after := fst (settle same_ref processRequest cb (Resolved (Some d)) s) in
  if lacks_results cb d then st_message after = generic_banner
  else if notifies cb
       then messageClass (st_message after) = VStr "alert alert-success"
       else st_message after = st_message s.
Proof.
  cbv zeta. destruct cb; unfold lacks_results, notifies, settle, then_callback.
  - cbn [fst]. rewrite getRecords_then_unfold. cbv zeta.
    rewrite (proj1 (_setRecordState_other same_ref _ _)).
    by destruct notifyResponse.
  - pose proof (reprocessRecord_then_state processRequest notifyResponse (Some d) s) as H.
    destruct (reprocessRecord_then processRequest notifyResponse (Some d) s)
      as [s' dd]. simpl in *. subst s'. by destruct notifyResponse.
  - unfold tagSuggestions_then. destruct (r_results d); by destruct notifyResponse.
  - cbn [fst]. unfold report_then. by destruct notifyResponse.
  - cbn [fst]. unfold report_then. by destruct notifyResponse.
  - cbn [fst]. unfold report_then. by destruct notifyResponse.
  - cbn [fst]. unfold report_then. by destruct notifyResponse.
  - cbn [fst]. unfold update_then. cbv zeta.
    destruct notifyResponse; [reflexivity|].
    by rewrite (proj1 (_setRecordState_other same_ref _ _)).
Qed.

(** ** Fetching, updating and reprocessing *)

(** X8.  A failed fetch writes the record state.  The [catch] callback of
    [getRecordsHandler] hands the record it holds to [_setRecordState]:
    with [r] the content of that record when the failure arrives, the
    record state becomes the meta of [r], page clamped, and the data of
    [r], whatever record state the responses of other requests have stored
    in the meantime; the admin flag is recomputed from those data and the
    error banner is shown. *)
Theorem failed_fetch_stores_callback_record
    same_ref processRequest r n e s
    (Href : sound_ref same_ref)
    (Hflag : userIsAdmin (st_authMeta s) ≠ VUndefined) :
  let after := fst (settle same_ref processRequest (CbGetRecords r n) (Rejected e) s) in
  page (meta (st_record after))
  = (if page (meta r) <? 1 then 1 else page (meta r))
  ∧ mfields (meta (st_record after)) = mfields (meta r)
  ∧ data (st_record after) = data r
  ∧ userIsAdmin (st_authMeta after)
    = default_param (VBool false) (adminStatus (data r))
  ∧ st_message after = generic_banner.
Proof.
  cbv zeta.
  unfold settle, catch_callback, getRecords_catch. cbn [fst].
  rewrite _setRecordState_record.
  rewrite _setRecordState_admin; [|exact Href|exact Hflag].
  rewrite (proj1 (_setRecordState_other same_ref _ _)).
  repeat split.
Qed.

Lemma X8_witness :
  data (st_record
          (fst (settle no_alias Examples.promise
                  (CbGetRecords (st_record Examples.state_after_first) true)
                  (Rejected VNull) Examples.state_after_second)))
  = data (st_record Examples.state_after_first).
Proof.
  refine (proj1 (proj2 (proj2
            (failed_fetch_stores_callback_record no_alias Examples.promise
               (st_record Examples.state_after_first) true VNull
               Examples.state_after_second no_alias_sound _)))).
  vm_compute. discriminate.
Defined.

(** X9.  The meta stored after a successful fetch is the meta of the record
    the [then] callback holds, laid over the meta of the record state: with
    [record] the content of that record when the response arrives, the
    stored page is the page of [record], clamped; a field of the meta of
    [record] is stored with the value it has there; a field that only the
    record state has is kept, as its JSON clone. *)
Theorem fetched_meta_over_state_meta same_ref record n d s k :
  let stored := meta (st_record (getRecords_then same_ref record n (Some d) s)) in
  page stored = (if page (meta record) <? 1 then 1 else page (meta record))
  ∧ mfields stored !! k
    = match mfields (meta record) !! k with
      | Some v => Some v
      | None => clone_obj (mfields (meta (st_record s))) !! k
      end.
Proof.
  cbv zeta. rewrite getRecords_then_unfold. cbv zeta.
  rewrite _setRecordState_record. simpl.
  split; [reflexivity | apply lookup_assign].
Qed.

(** X10.  The success banner of photo processing names one job: retag
    before scan before clean, whatever the other flags; it is empty
    exactly when no flag is set, and then a success banner with an empty
    text is shown.  The three process buttons of the toolbar each pass the
    flags that give the text of their own job, never the empty one. *)
Theorem process_photos_banner :
  (∀ retag scan clean_db,
     String.eqb (processPhotos_status retag scan clean_db) ""
     = negb (retag || scan || clean_db))
  ∧ (∀ scan clean_db, processPhotos_status true scan clean_db = statusMessages_retag)
  ∧ (∀ clean_db, processPhotos_status false true clean_db = statusMessages_scan)
  ∧ processPhotos_status false false true = statusMessages_clean_db
  ∧ (∀ same_ref processRequest retag scan clean_db d s,
       st_message
         (fst (settle same_ref processRequest
                 (CbProcessPhotos retag scan clean_db true) (Resolved (Some d)) s))
       = {| message := VStr (processPhotos_status retag scan clean_db);
            messageClass := VStr "alert alert-success" |})
  ∧ (∀ u b record st scan retag clean_db,
       Nav.handleProcessPhotos scan retag clean_db ∈ snd (Nav.click u b record st) →
       match b with
       | Nav.BtnScan =>
           processPhotos_status retag scan clean_db = statusMessages_scan
       | Nav.BtnRetag =>
           processPhotos_status retag scan clean_db = statusMessages_retag
       | Nav.BtnCleanDb =>
           processPhotos_status retag scan clean_db = statusMessages_clean_db
       | _ => False
       end).
Proof.
  split; [intros [] [] []; reflexivity|].
  repeat (split; [reflexivity|]).
  intros u b record st scan retag clean_db. unfold Nav.click.
  destruct (negb (Nav.rendered b st)); simpl; [by intros H%elem_of_nil|].
  destruct b; simpl; try destruct (truthy u); simpl; intros H;
    try (by apply elem_of_nil in H);
    apply list_elem_of_singleton in H; try discriminate H;
    by inversion H.
Qed.

Lemma X10_witness :
  processPhotos_status true false false = statusMessages_retag.
Proof.
  apply (proj2 (proj2 (proj2 (proj2 (proj2 process_photos_banner))))
               (VBool true) Nav.BtnRetag (st_record (app Examples.mounted))
               Examples.replacing false true false).
  vm_compute. apply list_elem_of_here.
Defined.

Lemma update_item_no_match same_ref body (l : list (gmap string value)) :
  Forall (λ r, strict_eq same_ref (get r "id") (get body "id") = false) l →
  map (update_item same_ref body) l = l.
Proof.
  induction 1 as [|r l Hr Hl IH]; [reflexivity|].
  simpl. rewrite IH. unfold update_item. by rewrite Hr.
Qed.

Lemma map_clone_obj_json (l : list (gmap string value)) :
  Forall (map_Forall (λ _, json)) l → map clone_obj l = l.
Proof.
  induction 1 as [|r l Hr Hl IH]; [reflexivity|].
  simpl. by rewrite IH, (clone_obj_json r Hr).
Qed.

Lemma clone_record_json r : json_record r → clone_record r = r.
Proof.
  intros (Hm & Hd & Hr). unfold clone_record.
  rewrite (clone_obj_json _ Hm), (clone_obj_json _ Hd), (map_clone_obj_json _ Hr).
  by destruct r as [[] []].
Qed.

(** X11.  An update never adds or removes an item, and an update whose
    response carries an [id] that no shown item has changes no item: for a
    record of JSON values the stored data are the data as they were. *)
Theorem update_of_unknown_id_changes_nothing :
  (∀ same_ref n d s,
     List.length (results (data (st_record (update_then same_ref n (Some d) s))))
     = List.length (results (data (st_record s))))
  ∧ (∀ same_ref n d s,
       json_record (st_record s) →
       Forall (λ r, strict_eq same_ref (get r "id") (get (data_obj d) "id") = false)
              (results (data (st_record s))) →
       data (st_record (update_then same_ref n (Some d) s)) = data (st_record s)).
Proof.
  split.
  - intros. rewrite update_then_record. simpl. by rewrite !length_map.
  - intros same_ref n d s Hj Hno. rewrite update_then_record. simpl.
    destruct Hj as (_ & Hd & Hr).
    rewrite (map_clone_obj_json _ Hr), (clone_obj_json _ Hd).
    rewrite (update_item_no_match _ _ _ Hno).
    by destruct (data (st_record s)).
Qed.

Lemma X11_witness :
  let s :=
    setState_record
      {| meta := {| page := 2; mfields := {[ "search" := VStr "sea" ]} |};
         data := {| results := [ {[ "id" := VNum 7 ]} ]; dfields := ∅ |} |}
      (app Examples.mounted) in
  data (st_record (update_then no_alias true
                     (Some {| r_results := None;
                              r_fields := {[ "id" := VNum 8 ]} |}) s))
  = data (st_record s).
Proof.
  cbv zeta. apply (proj2 update_of_unknown_id_changes_nothing).
  - split; [|split]; simpl.
    + apply map_Forall_singleton. constructor.
    + apply map_Forall_empty.
    + constructor; [|constructor]. apply map_Forall_singleton. constructor.
  - simpl. constructor; [vm_compute; reflexivity | constructor].
Defined.

(** X12.  Reprocessing a record clears the tag suggestions whether or not
    a request goes out, and never writes the record state itself: a
    request goes out only for an authenticated user and a record; when it
    succeeds, the records are fetched again for the record state of that
    moment, with the notification on even if the reprocess was silent. *)
Theorem reprocess_then_refetch same_ref processRequest record n s0 :
  st_tagSuggestions (fst (reprocessRecordHandler processRequest record n s0))
  = {| itemID := VNull; suggestions := [] |}
  ∧ st_record (fst (reprocessRecordHandler processRequest record n s0))
    = st_record s0
  ∧ snd (reprocessRecordHandler processRequest record n s0)
    = match record with
      | Some r =>
          if authenticated (st_authMeta s0) && processRequest (ReqReprocess r)
          then [(ReqReprocess r, CbReprocessRecord n)]
          else []
      | None => []
      end
  ∧ (∀ o s,
       st_record (fst (settle same_ref processRequest (CbReprocessRecord n) o s))
       = st_record s)
  ∧ (∀ d s,
       snd (settle same_ref processRequest (CbReprocessRecord n)
                   (Resolved (Some d)) s)
       = if authenticated (st_authMeta s)
            && processRequest (ReqGetPhotos VNull (st_record s))
         then [(ReqGetPhotos VNull (st_record s), CbGetRecords (st_record s) true)]
         else []).
Proof.
  split; [reflexivity|]. split; [reflexivity|]. split.
  { unfold reprocessRecordHandler. simpl. destruct record as [r|]; [|reflexivity].
    destruct (authenticated (st_authMeta s0)); simpl; [|reflexivity].
    by destruct (processRequest (ReqReprocess r)). }
  split.
  - intros [response|e] s; [|reflexivity].
    unfold settle, then_callback.
    pose proof (reprocessRecord_then_state processRequest n response s) as H.
    destruct (reprocessRecord_then processRequest n response s) as [s' dd].
    simpl in *. subst s'. destruct response; [by destruct n | reflexivity].
  - intros d s. unfold settle, then_callback, reprocessRecord_then, getRecordsHandler.
    simpl.
    assert (authenticated (st_authMeta
              (if n then setMessage (VStr "Reprocessing task initiated!")
                                    (VStr ALERT_SUCCESS) s else s))
            = authenticated (st_authMeta s)) as -> by (by destruct n).
    assert (st_record
              (if n then setMessage (VStr "Reprocessing task initiated!")
                                    (VStr ALERT_SUCCESS) s else s)
            = st_record s) as Hr by (by destruct n).
    destruct (authenticated (st_authMeta s)); simpl; [|reflexivity].
    rewrite Hr. by destruct (processRequest _).
Qed.

(** ** Requests in flight *)

Lemma NoDup_lt_length (l : list nat) n :
  NoDup l → Forall (λ a, (a < n)%nat) l → (List.length l ≤ n)%nat.
Proof.
  intros Hnd Hlt.
  assert (l ⊆+ seq 0 n) as Hsub.
  { apply NoDup_submseteq; [exact Hnd|]. intros x Hx.
    rewrite Forall_forall in Hlt. specialize (Hlt x Hx).
    apply elem_of_seq. lia. }
  apply submseteq_length in Hsub. by rewrite length_seq in Hsub.
Qed.

(** X13.  There are never more requests in flight than user actions so
    far: each request in flight goes back to an action of its own. *)
Theorem requests_in_flight_bounded same_ref processRequest env sys :
  reachable same_ref processRequest env sys →
  (List.length (pending sys) ≤ actions sys)%nat.
Proof.
  intros Hr.
  destruct (reachable_ok same_ref processRequest env sys Hr) as [_ [Hnd Hlt]].
  unfold origins in *.
  rewrite <- (length_map origin). by apply NoDup_lt_length.
Qed.

Lemma X13_witness :
  (List.length (pending Examples.after_second)
   ≤ actions Examples.after_second)%nat.
Proof.
  apply (requests_in_flight_bounded no_alias Examples.promise Examples.env0).
  apply after_second_reachable.
Defined.

(** ** Clones *)

(** X14.  The clone a handler takes of a record of JSON values is the
    record itself, so that a successful fetch stores exactly the fields of
    the response over the fields the record data had. *)
Theorem json_record_fetch same_ref record n d l s :
  json_record (st_record s) →
  r_results d = Some l →
  clone_record (st_record s) = st_record s
  ∧ data (st_record (getRecords_then same_ref record n (Some d) s))
    = {| results := l; dfields := r_fields d ∪ dfields (data (st_record s)) |}.
Proof.
  intros Hj Hl. split; [by apply clone_record_json|].
  rewrite getRecords_then_unfold. cbv zeta.
  rewrite _setRecordState_record, Hl. simpl.
  destruct Hj as (_ & Hd & _). by rewrite (clone_obj_json _ Hd).
Qed.

Lemma X14_witness :
  let s :=
    setState_record
      {| meta := {| page := 2; mfields := {[ "search" := VStr "sea" ]} |};
         data := {| results := []; dfields := {[ "count" := VNum 0 ]} |} |}
      (app Examples.mounted) in
  clone_record (st_record s) = st_record s.
Proof.
  cbv zeta.
  refine (proj1 (json_record_fetch no_alias (st_record Examples.state_after_first)
                   true Examples.one_photo [ {[ "id" := VNum 7 ]} ] _ _ _)).
  - split; [|split]; simpl.
    + apply map_Forall_singleton. constructor.
    + apply map_Forall_singleton. constructor.
    + constructor.
  - reflexivity.
Defined.

(** ** The session storage *)

Lemma foldl_delete_lookup (keys : list string) (storage : gmap string string) k :
  foldl (λ st k, delete k st) storage keys !! k
  = if bool_decide (k ∈ keys) then None else storage !! k.
Proof.
  revert storage. induction keys as [|k' keys IH]; intros storage; simpl.
  - reflexivity.
  - rewrite IH. destruct (decide (k = k')) as [->|Hne].
    + rewrite lookup_delete_eq.
      rewrite (bool_decide_eq_true_2 (k' ∈ k' :: keys)); [|by left].
      by destruct (bool_decide (k' ∈ keys)).
    + rewrite lookup_delete_ne; [|done].
      destruct (bool_decide (k ∈ keys)) eqn:E.
      * apply bool_decide_eq_true in E.
        rewrite (bool_decide_eq_true_2 (k ∈ k' :: keys)); [done | by right].
      * apply bool_decide_eq_false in E.
        rewrite (bool_decide_eq_false_2 (k ∈ k' :: keys)); [done|].
        intros Hin. apply elem_of_cons in Hin as [?|?]; done.
Qed.

Lemma deleteSessionStorage_get keys storage k :
  Session.getSessionStorage k (fst (Session.deleteSessionStorage keys storage))
  = (if bool_decide (k ∈ keys) then VNull
     else Session.getSessionStorage k storage).
Proof.
  unfold Session.deleteSessionStorage, Session.getSessionStorage. simpl.
  destruct keys as [|k' keys]; simpl.
  - reflexivity.
  - pose proof (foldl_delete_lookup (k' :: keys) storage k) as H.
    simpl in H. rewrite H.
    by destruct (bool_decide (k ∈ k' :: keys)).
Qed.

(** X15.  [deleteSessionStorage] removes the items of all the keys it is
    given and no other item, and returns [true], also for no keys at all:
    afterwards a key of the list reads [null] and any other key reads what
    it read before. *)
Theorem deleteSessionStorage_removes keys storage k :
  Session.getSessionStorage k (fst (Session.deleteSessionStorage keys storage))
  = (if bool_decide (k ∈ keys) then VNull
     else Session.getSessionStorage k storage)
  ∧ snd (Session.deleteSessionStorage keys storage) = true.
Proof.
  split; [apply deleteSessionStorage_get | reflexivity].
Qed.

(** X16.  Authentication follows the stored token: after a token has been
    stored, [setAuthentication] finds the user authenticated unless the
    token is the empty string; after the token has been deleted it finds
    the user not authenticated and sends nothing. *)
Theorem authentication_follows_stored_token processRequest storage s :
  (∀ t,
     authenticated
       (st_authMeta
          (fst (Session.setAuthentication processRequest
                  (Session.setSessionStorage "token" t storage) s)))
     = negb (String.eqb t ""))
  ∧ (∀ keys,
       "token" ∈ keys →
       let out :=
         Session.setAuthentication processRequest
           (fst (Session.deleteSessionStorage keys storage)) s in
       authenticated (st_authMeta (fst out)) = false ∧ snd out = []).
Proof.
  split.
  - intros t. unfold Session.setAuthentication.
    rewrite setAuthentication_state. simpl.
    unfold Session.getSessionStorage, Session.setSessionStorage.
    by rewrite lookup_insert_eq.
  - intros keys Hin. cbv zeta. unfold Session.setAuthentication.
    pose proof (deleteSessionStorage_get keys storage "token") as Hget.
    rewrite (bool_decide_eq_true_2 _ Hin) in Hget. rewrite Hget.
    rewrite setAuthentication_state. split; [reflexivity|].
    unfold setAuthentication, getRecordsHandler. reflexivity.
Qed.

Lemma X16_witness :
  snd (Session.setAuthentication Examples.promise
         (fst (Session.deleteSessionStorage ["token"; "username"]
                 (Session.setSessionStorage "token" "abc" ∅)))
         Examples.state_after_first) = [].
Proof.
  apply (proj2 (authentication_follows_stored_token Examples.promise
                  (Session.setSessionStorage "token" "abc" ∅)
                  Examples.state_after_first) ["token"; "username"]).
  by left.
Defined.

(** ** The toolbar *)

Import Nav NavRun.

Lemma regex_test_empty : regex_test "" = true.
Proof. reflexivity. Qed.

Lemma validateTerm_valid st v :
  regex_test (term st) = true → regex_test (validateTerm st v) = true.
Proof.
  intros Ht. unfold validateTerm. by destruct (regex_test v) eqn:E.
Qed.

Lemma click_cells u b record st :
  fst (fst (click u b record st)) = st
  ∨ (term (fst (fst (click u b record st))) = ""
     ∧ replaceTerm (fst (fst (click u b record st))) = "").
Proof.
  unfold click. destruct (negb (rendered b st)); [by left|].
  destruct b; simpl; destruct (truthy u); simpl; auto.
Qed.

Lemma handle_terms_valid u record ev st :
  terms_valid st → terms_valid (fst (handle u record ev st)).
Proof.
  intros [Ht Hr]. destruct ev as [v|v|b]; simpl.
  - split; [by apply validateTerm_valid | exact Hr].
  - destruct (sar st); simpl; [|by split].
    split; [exact Ht | by apply validateTerm_valid].
  - pose proof (click_cells u b record st) as H.
    destruct (click u b record st) as [[st' r'] c]. simpl in *.
    destruct H as [-> | [H1 H2]]; [by split|].
    unfold terms_valid. by rewrite H1, H2.
Qed.

Lemma run_terms_valid evs st :
  terms_valid st → terms_valid (fst (run evs st)).
Proof.
  revert st. induction evs as [|[[u r] ev] evs IH]; intros st Hst; [exact Hst|].
  simpl. pose proof (handle_terms_valid u r ev st Hst) as H.
  destruct (handle u r ev st) as [st' c]. simpl in H.
  specialize (IH st' H). by destruct (run evs st').
Qed.

(** X17.  Whatever is typed and clicked, the search term and the replace
    term held by the toolbar always match the regular expression of
    [validateTerm]: an input that does not match never reaches either
    cell. *)
Theorem stored_terms_always_valid evs :
  regex_test (term (fst (run evs initial))) = true
  ∧ regex_test (replaceTerm (fst (run evs initial))) = true.
Proof. apply (run_terms_valid evs initial). by split. Qed.

Lemma nonempty_truthy s : truthy (VStr s) = true → s ≠ "".
Proof. intros H ->. discriminate H. Qed.

(** X18.  What the toolbar asks of its callbacks.  In a render with valid
    cells, every call an event makes is well formed: a refresh asks for
    page 1; a search is made outside search-and-replace mode with a term
    that matches the regular expression; a process-photos call comes from
    an admin with exactly one of scan, retag and clean set; prune and bulk
    removal come from an admin; a search-and-replace comes from an admin
    in search-and-replace mode with two non-empty terms that match the
    regular expression. *)
Theorem toolbar_calls_well_formed userIsAdmin record ev st :
  terms_valid st →
  Forall (call_ok userIsAdmin st) (snd (handle userIsAdmin record ev st)).
Proof.
  intros [Ht Hr]. destruct ev as [v|v|b]; simpl.
  - destruct (sar st) eqn:Hs; simpl; [constructor|].
    constructor; [|constructor]. simpl. split; [exact Hs|].
    by apply validateTerm_valid.
  - destruct (sar st); constructor.
  - unfold click. destruct (rendered b st) eqn:Hrend; simpl; [|constructor].
    destruct b; simpl.
    all: try (destruct (truthy userIsAdmin) eqn:Hu; simpl).
    all: try (by repeat constructor).
    simpl in Hrend.
    apply andb_true_iff in Hrend as [Hrend H3].
    apply andb_true_iff in Hrend as [H1 H2].
    constructor; [|constructor]. simpl.
    repeat split; auto using nonempty_truthy.
Qed.

Lemma X18_witness :
  Forall (call_ok (VBool true) Examples.replacing)
         (snd (handle (VBool true) (st_record (app Examples.mounted))
                      (Click BtnReplace) Examples.replacing)).
Proof.
  apply toolbar_calls_well_formed. split; reflexivity.
Defined.

Lemma handle_non_admin u record ev st :
  truthy u = false → sar st = false →
  sar (fst (handle u record ev st)) = false
  ∧ Forall (λ c, match c with
                 | handleGetRecords _ | handleSearch _ _ => True
                 | _ => False
                 end) (snd (handle u record ev st)).
Proof.
  intros Hu Hs. destruct ev as [v|v|b]; simpl.
  - rewrite Hs. simpl. split; [done|]. by repeat constructor.
  - rewrite Hs. simpl. split; [done|]. constructor.
  - unfold click. destruct (negb (rendered b st)); simpl; [by split; [|constructor]|].
    destruct b; simpl; rewrite ?Hu; simpl; (split; [done|]); by repeat constructor.
Qed.

(** X19.  A user who is not an admin can refresh and search, nothing
    else: as long as every render has a falsy [userIsAdmin], the toolbar
    never enters search-and-replace mode and calls no callback other than
    [handleGetRecords] and [handleSearch]. *)
Theorem non_admin_toolbar evs :
  Forall (λ e : value * RecordT * Event, truthy (fst (fst e)) = false) evs →
  sar (fst (run evs initial)) = false
  ∧ Forall (λ c, match c with
                 | handleGetRecords _ | handleSearch _ _ => True
                 | _ => False
                 end) (snd (run evs initial)).
Proof.
  assert (sar initial = false) as H0 by reflexivity.
  revert H0. generalize initial as st.
  induction evs as [|[[u r] ev] evs IH]; intros st Hs Hall.
  - split; [exact Hs | constructor].
  - apply Forall_cons in Hall as [Hu Hall]. simpl in Hu. simpl.
    destruct (handle_non_admin u r ev st Hu Hs) as [Hs' Hc].
    destruct (handle u r ev st) as [st' c]. simpl in *.
    destruct (IH st' Hs' Hall) as [Hs'' Hcs].
    destruct (run evs st') as [st'' cs]. simpl in *.
    split; [exact Hs''|]. by apply Forall_app.
Qed.

Lemma X19_witness :
  sar (fst (run [ (VBool false, st_record (app Examples.mounted),
                   Click BtnSearchAndReplaceSwitch);
                  (VNull, st_record (app Examples.mounted), Change "sea");
                  (VBool false, st_record (app Examples.mounted),
                   Click BtnPruneTags) ] initial)) = false.
Proof.
  refine (proj1 (non_admin_toolbar _ _)). repeat constructor.
Defined.

(** X20.  A replacement cannot be fired twice: when a click on the replace
    button has called [handleSearchAndReplace], it was called with the
    search term and the replace term of the cells, both cells are empty
    afterwards, the mode is kept, and a second click calls nothing,
    whoever the user is then. *)
Theorem replace_fires_once u record st u' record' :
  snd (click u BtnReplace record st) ≠ [] →
  let st1 := fst (fst (click u BtnReplace record st)) in
  snd (click u BtnReplace record st)
  = [handleSearchAndReplace (term st) (replaceTerm st)]
  ∧ term st1 = "" ∧ replaceTerm st1 = "" ∧ sar st1 = sar st
  ∧ click u' BtnReplace record' st1 = (st1, record', []).
Proof.
  unfold click. destruct (negb (rendered BtnReplace st)); simpl; [done|].
  destruct (truthy u); simpl; [|done]. intros _.
  repeat split. unfold rendered. simpl. by rewrite andb_false_r.
Qed.

Lemma X20_witness :
  click VNull BtnReplace (st_record (app Examples.mounted))
        (fst (fst (click (VBool true) BtnReplace
                         (st_record (app Examples.mounted)) Examples.replacing)))
  = (fst (fst (click (VBool true) BtnReplace
                     (st_record (app Examples.mounted)) Examples.replacing)),
     st_record (app Examples.mounted), []).
Proof.
  refine (proj2 (proj2 (proj2 (proj2
            (replace_fires_once (VBool true) (st_record (app Examples.mounted))
               Examples.replacing VNull (st_record (app Examples.mounted)) _))))).
  discriminate.
Defined.

(** X21.  A button of the toolbar that is rendered does something exactly
    when it is not disabled: for every button the [disabled] attribute and
    the [onClick] agree. *)
Theorem disabled_iff_no_effect u b record st :
  rendered b st = true →
  (click u b record st = (st, record, []) ↔ disabled u b = true).
Proof.
  intros Hr. unfold click, disabled. rewrite Hr. simpl.
  destruct b; simpl; try destruct (truthy u); simpl; (split; intros H);
    try reflexivity; try discriminate H; try (inversion H; fail).
  apply (f_equal (λ x, sar (fst (fst x)))) in H. simpl in H.
  by destruct (sar st).
Qed.

Lemma X21_witness :
  click VNull BtnPruneTags (st_record (app Examples.mounted)) initial
  = (initial, st_record (app Examples.mounted), [])
  ↔ disabled VNull BtnPruneTags = true.
Proof.
  apply disabled_iff_no_effect. reflexivity.
Defined.

(** X22.  [validateTerm] gives back the input when every character of it is
    a letter, a digit or one of . / + - ' ? : | ( ) space and the double
    quote, and the stored search term otherwise; the empty input is always
    accepted, so a field can always be cleared. *)
Theorem validateTerm_accepts_the_listed_characters st v :
  validateTerm st v
  = (if bool_decide (Forall (λ c, c ∈ allowed_chars) (list_ascii_of_string v))
     then v else term st)
  ∧ validateTerm st "" = "".
Proof.
  split; [|reflexivity]. unfold validateTerm.
  destruct (regex_test v) eqn:E.
  - apply regex_test_Forall in E. by rewrite (bool_decide_eq_true_2 _ E).
  - rewrite bool_decide_eq_false_2; [reflexivity|].
    intros H. apply regex_test_Forall in H. congruence.
Qed.
